(** * Shallow embedding of the Hono todo worker (src/src/index.ts)

    The worker exposes signup/signin (scrypt-hashed passwords, HS256 JWTs),
    an authentication middleware, and a todo create/list API backed by a
    Prisma store.  Each source function is translated below; the external
    libraries it calls (@noble/hashes, jsonwebtoken, Prisma, Hono) are
    modelled by their documented behaviour, with the cryptographic
    primitives left abstract in a type class. *)

From Stdlib Require Import String Ascii List Bool Arith Lia ZArith.
From Stdlib Require Import Strings.Byte.
Import ListNotations.
Open Scope string_scope.

(** ** JavaScript runtime helpers *)

Module Js.

(** A synchronous or awaited computation either returns or throws an
    [Error] carrying a message. *)
Inductive Exc (A : Type) : Type :=
| Ok (a : A)
| Throw (msg : string).
Arguments Ok {A} a.
Arguments Throw {A} msg.

(** [String.prototype.split] with a one-character separator.
    ["".split(c)] is [[""]], and a trailing separator yields a trailing
    empty string. *)
Fixpoint split (sep : ascii) (s : string) : list string :=
  match s with
  | EmptyString => [EmptyString]
  | String x rest =>
      if Ascii.eqb x sep then EmptyString :: split sep rest
      else match split sep rest with
           | h :: t => String x h :: t
           | [] => [String x EmptyString]
           end
  end.

(** Truthiness of a possibly-undefined string: [undefined] and [""] are
    falsy. *)
Definition truthy (o : option string) : bool :=
  match o with
  | Some (String _ _) => true
  | _ => false
  end.

(** [a || b] on strings, as used for configuration fallbacks. *)
Definition or_else (o : option string) (dflt : string) : string :=
  match o with
  | Some (String _ _ as s) => s
  | _ => dflt
  end.

(** [true] when the character [c] does not occur in [s]. *)
Fixpoint no_char (c : ascii) (s : string) : bool :=
  match s with
  | EmptyString => true
  | String x rest => negb (Ascii.eqb x c) && no_char c rest
  end.

(** Decimal rendering of a number ([String(n)]), used for server-assigned
    ids and in error messages. *)
Fixpoint digits_aux (fuel n : nat) (acc : string) : string :=
  match fuel with
  | O => acc
  | S f =>
      let acc' := String (ascii_of_nat (48 + n mod 10)) acc in
      if Nat.ltb n 10 then acc' else digits_aux f (n / 10) acc'
  end.

Definition nat_to_string (n : nat) : string := digits_aux (S n) n EmptyString.

(** The double-quote character. *)
Definition dquote : ascii := "034"%char.

End Js.

Import Js.

(** ** @noble/hashes/utils: [bytesToHex] and [hexToBytes] *)

Module Hex.

(** One lowercase hex digit, as in noble's [hexes] table. *)
Definition hex_digit (n : nat) : ascii :=
  if Nat.ltb n 10 then ascii_of_nat (48 + n) else ascii_of_nat (87 + n).

Fixpoint bytesToHex (bytes : list byte) : string :=
  match bytes with
  | [] => EmptyString
  | b :: rest =>
      String (hex_digit (Byte.to_nat b / 16))
        (String (hex_digit (Byte.to_nat b mod 16)) (bytesToHex rest))
  end.

(** [asciiToBase16]: digits, [A-F] and [a-f]. *)
Definition asciiToBase16 (c : ascii) : option nat :=
  let n := nat_of_ascii c in
  if Nat.leb 48 n && Nat.leb n 57 then Some (n - 48)
  else if Nat.leb 65 n && Nat.leb n 70 then Some (n - 55)
  else if Nat.leb 97 n && Nat.leb n 102 then Some (n - 87)
  else None.

(** Storing a number into a [Uint8Array] cell keeps it modulo 256. *)
Definition u8 (n : nat) : byte :=
  match Byte.of_nat (n mod 256) with
  | Some b => b
  | None => x00
  end.

(** The decoding loop, two characters per byte, left to right; [hi] is
    the index of the pair's first character. *)
Fixpoint hex_pairs (hi : nat) (s : string) : Exc (list byte) :=
  match s with
  | String c1 (String c2 rest) =>
      match asciiToBase16 c1, asciiToBase16 c2 with
      | Some n1, Some n2 =>
          match hex_pairs (2 + hi) rest with
          | Ok l => Ok (u8 (n1 * 16 + n2) :: l)
          | Throw e => Throw e
          end
      | _, _ =>
          Throw ("hex string expected, got non-hex character " ++
                 String dquote (String c1 (String c2 (String dquote
                   (" at index " ++ nat_to_string hi)))))
      end
  | _ => Ok []
  end.

Definition hexToBytes (hex : string) : Exc (list byte) :=
  if Nat.odd (String.length hex)
  then Throw ("hex string expected, got unpadded hex of length " ++
              nat_to_string (String.length hex))
  else hex_pairs 0 hex.

End Hex.

Import Hex.

(** ** Library primitives left abstract

    [scrypt] is noble's [scrypt(password, salt, {N: 2**16, r: 8, p: 1,
    dkLen: 32})]; [hs256] is the base64url HMAC-SHA256 signature that
    jsonwebtoken appends to a token; [encode_segment] is the base64url JSON
    payload segment [{userId}] written by [jwt.sign], and [decode_segment]
    reads a payload segment back: [None] when it is not decodable JSON,
    [Some None] when the object has no [userId], [Some (Some u)] otherwise.
    The [iat] claim that jsonwebtoken adds is never read by the worker and
    is not carried. *)
Class Crypto : Type := {
  scrypt : string -> list byte -> list byte;
  hs256 : string -> string -> string;
  encode_segment : string -> string;
  decode_segment : string -> option (option string)
}.

(** ** Data model *)

Record User : Type := {
  user_id : string;
  user_email : string;
  user_password : string
}.

(** Modelled from the spec: the Prisma schema (not under src/) gives a Todo
    an identifier, title, description, a [completed] flag defaulting to
    false, the owning user's identifier and creation/update timestamps. *)
Record Todo : Type := {
  todo_id : string;
  todo_title : string;
  todo_description : string;
  todo_completed : bool;
  todo_userId : string;
  todo_createdAt : nat;
  todo_updatedAt : nat
}.

(** The persistence store, in insertion (natural) order, with the counter
    from which fresh identifiers are drawn. *)
Record Store : Type := {
  users : list User;
  todos : list Todo;
  next_id : nat
}.

(** The worker's bindings ([c.env]) and [process.env]. *)
Record Config : Type := {
  env_DATABASE_URL : option string;
  env_JWT_SECRET : option string;
  process_DATABASE_URL : option string;
  process_JWT_SECRET : option string
}.

(** [c.env?.JWT_SECRET || process.env.JWT_SECRET || ''], the same
    expression in the signin handler and in the middleware. *)
Definition jwt_secret (cfg : Config) : string :=
  or_else (env_JWT_SECRET cfg) (or_else (process_JWT_SECRET cfg) "").

(** JSON request bodies: an object as an association list; [JSON.parse]
    keeps the last of duplicated keys. *)
Inductive JVal : Type :=
| JStr (s : string)
| JNum (z : Z)
| JBool (b : bool)
| JNull
| JCompound.

Definition JObj : Type := list (string * JVal).

Definition jget (k : string) (o : JObj) : option JVal :=
  fold_left (fun acc kv => if String.eqb (fst kv) k then Some (snd kv) else acc)
    o None.

(** [!v] is false exactly for these values. *)
Definition jtruthy (v : option JVal) : bool :=
  match v with
  | Some (JStr (String _ _)) | Some (JBool true) | Some JCompound => true
  | Some (JNum z) => negb (Z.eqb z 0)
  | _ => false
  end.

Inductive Method : Type := GET | POST | OTHER_METHOD.

Record Request : Type := {
  req_method : Method;
  req_path : string;
  req_authorization : option string;
  req_body : option JObj   (** [None]: the body is not valid JSON *)
}.

Inductive Body : Type :=
| BMessage (msg : string)
| BMessageError (msg err : string)
| BUserId (id : string)
| BToken (token : string)
| BTodo (todo : Todo)
| BTodos (todos : list Todo)
| BText (text : string).

Record Response : Type := {
  status : nat;
  body : Body
}.

Definition json (b : Body) (st : nat) : Response := {| status := st; body := b |}.

(** ** State and exception monad for handlers

    A handler runs against the store and may throw; writes done before a
    throw persist. *)
Definition M (A : Type) : Type := Store -> Exc A * Store.

Definition ret {A} (a : A) : M A := fun s => (Ok a, s).

Definition bind {A B} (m : M A) (k : A -> M B) : M B :=
  fun s => match m s with
           | (Ok a, s') => k a s'
           | (Throw e, s') => (Throw e, s')
           end.

Definition throw {A} (e : string) : M A := fun s => (Throw e, s).

Definition lift {A} (x : Exc A) : M A := fun s => (x, s).

(** [try { m } catch (e) { h(e) }] *)
Definition try_catch {A} (m : M A) (h : string -> M A) : M A :=
  fun s => match m s with
           | (Throw e, s') => h e s'
           | r => r
           end.

(** Runs [m] and reports a throw as a value. *)
Definition attempt {A} (m : M A) : M (Exc A) :=
  fun s => let (r, s') := m s in (Ok r, s').

Notation "x <- m ;; k" := (bind m (fun x => k))
  (at level 61, m at next level, right associativity).

Section Worker.

Context `{Crypto}.

(** ** Password hashing (index.ts, [hashPassword] and [verifyPassword])

    [salt] is the 16 bytes drawn by [crypto.getRandomValues]. *)
Definition hashPassword (salt : list byte) (password : string) : string :=
  bytesToHex salt ++ ":" ++ bytesToHex (scrypt password salt).

Definition verifyPassword (password hashedPassword : string) : Exc bool :=
  let parts := split ":"%char hashedPassword in
  let saltHex := nth_error parts 0 in
  let hashHex := nth_error parts 1 in
  if negb (truthy saltHex) || negb (truthy hashHex) then Ok false
  else
    match saltHex, hashHex with
    | Some sh, Some hh =>
        match hexToBytes sh with
        | Throw e => Throw e
        | Ok salt => Ok (String.eqb (bytesToHex (scrypt password salt)) hh)
        end
    | _, _ => Ok false
    end.

(** ** jsonwebtoken, HS256

    The base64url header [{"alg":"HS256","typ":"JWT"}] that [jwt.sign]
    writes by default. *)
Definition jwt_header : string := "eyJhbGciOiJIUzI1NiIsInR5cCI6IkpXVCJ9".

(** [jwt.sign({ userId }, secret)]: an empty secret is refused. *)
Definition jwt_sign (userId secret : string) : Exc string :=
  if String.eqb secret "" then Throw "secretOrPrivateKey must have a value"
  else
    let signing_input := jwt_header ++ "." ++ encode_segment userId in
    Ok (signing_input ++ "." ++ hs256 secret signing_input).

(** [jwt.verify(token, secret)]: returns the decoded payload's [userId]
    or throws a [JsonWebTokenError].  Only the header [jwt.sign] writes by
    default (HS256) is accepted, and [exp]/[nbf] are not checked: the
    tokens this worker issues carry neither. *)
Definition jwt_verify (token secret : string) : Exc (option string) :=
  if String.eqb token "" then Throw "jwt must be provided"
  else
    match split "."%char token with
    | [h; p; sg] =>
        match decode_segment p with
        | None => Throw "invalid token"
        | Some decoded =>
            if String.eqb secret "" then Throw "secret or public key must be provided"
            else if negb (String.eqb h jwt_header) then Throw "invalid algorithm"
            else if String.eqb sg "" then Throw "jwt signature is required"
            else if String.eqb (hs256 secret (h ++ "." ++ p)) sg then Ok decoded
            else Throw "invalid signature"
        end
    | _ => Throw "jwt malformed"
    end.

(** ** Prisma client operations *)

(** [getPrismaClient]: throws when no database URL is configured. *)
Definition getPrismaClient (cfg : Config) : M unit :=
  if truthy (env_DATABASE_URL cfg) || truthy (process_DATABASE_URL cfg)
  then ret tt
  else throw "DATABASE_URL is not set. Please configure it in wrangler.jsonc or environment variables.".

(** A body value passed where Prisma or scrypt expects a string.  Only
    string values are modelled as accepted; other values (which Prisma may
    read as a filter object) are modelled as a validation error. *)
Definition as_string (field : string) (v : option JVal) : M string :=
  match v with
  | Some (JStr s) => ret s
  | _ => throw ("Invalid value provided for argument `" ++ field ++ "`")
  end.

(** [user.findFirst({ where: { email } })] *)
Definition user_findFirst (email : string) : M (option User) :=
  fun s => (Ok (find (fun u => String.eqb (user_email u) email) (users s)), s).

(** [user.create({ data: { email, password } })] *)
Definition user_create (email password : string) : M User :=
  fun s =>
    let u := {| user_id := nat_to_string (next_id s);
                user_email := email; user_password := password |} in
    (Ok u, {| users := users s ++ [u]; todos := todos s; next_id := S (next_id s) |}).

(** [todo.create({ data: { title, description, userId } })]; [completed]
    takes the schema default. *)
Definition todo_create (title description userId : string) (now : nat) : M Todo :=
  fun s =>
    let t := {| todo_id := nat_to_string (next_id s);
                todo_title := title; todo_description := description;
                todo_completed := false; todo_userId := userId;
                todo_createdAt := now; todo_updatedAt := now |} in
    (Ok t, {| users := users s; todos := todos s ++ [t]; next_id := S (next_id s) |}).

(** [todo.findMany({ where: { userId } })]; Prisma drops an [undefined]
    filter, so no user id means no filter. *)
Definition todo_findMany (userId : option string) : M (list Todo) :=
  fun s =>
    (Ok (match userId with
         | Some u => filter (fun t => String.eqb (todo_userId t) u) (todos s)
         | None => todos s
         end), s).

(** [await c.req.json()] *)
Definition req_json (req : Request) : M JObj :=
  match req_body req with
  | Some o => ret o
  | None => throw "Unexpected end of JSON input"
  end.

Definition internal_error (e : string) : M Response :=
  ret (json (BMessageError "Internal server error" e) 500).

(** ** Route handlers *)

(** [POST /api/v1/signup]; [salt] is the request's random salt. *)
Definition signup (cfg : Config) (salt : list byte) (req : Request) : M Response :=
  try_catch (
    obj <- req_json req ;;
    let email := jget "email" obj in
    let password := jget "password" obj in
    if negb (jtruthy email) || negb (jtruthy password)
    then ret (json (BMessage "Please provide email and password") 400)
    else
      client <- attempt (getPrismaClient cfg) ;;
      match client with
      | Throw e => ret (json (BMessageError "Database connection error" e) 500)
      | Ok _ =>
          e <- as_string "email" email ;;
          existingUser <- user_findFirst e ;;
          match existingUser with
          | Some _ => ret (json (BMessage "User already exists") 400)
          | None =>
              p <- as_string "password" password ;;
              let hashedPassword := hashPassword salt p in
              user <- user_create e hashedPassword ;;
              ret (json (BUserId (user_id user)) 200)
          end
      end)
    internal_error.

(** [POST /api/v1/signin] *)
Definition signin (cfg : Config) (req : Request) : M Response :=
  try_catch (
    obj <- req_json req ;;
    let email := jget "email" obj in
    let password := jget "password" obj in
    if negb (jtruthy email) || negb (jtruthy password)
    then ret (json (BMessage "Please provide email and password") 400)
    else
      _ <- getPrismaClient cfg ;;
      e <- as_string "email" email ;;
      existingUser <- user_findFirst e ;;
      match existingUser with
      | None => ret (json (BMessage "user doesn't exist") 400)
      | Some u =>
          p <- as_string "password" password ;;
          isPasswordCorrect <- lift (verifyPassword p (user_password u)) ;;
          if negb isPasswordCorrect
          then ret (json (BMessage "Invalid password") 400)
          else
            token <- lift (jwt_sign (user_id u) (jwt_secret cfg)) ;;
            ret (json (BToken token) 200)
      end)
    internal_error.

(** The auth middleware's outcome: a response that short-circuits the
    pipeline, or [next()] with the [userId] bound in the context. *)
Inductive GateOutcome : Type :=
| Reject (r : Response)
| Pass (userId : option string).

(** [c.req.header('Authorization')?.split(' ')[1]] *)
Definition bearer_token (authorization : option string) : option string :=
  match authorization with
  | None => None
  | Some h => nth_error (split " "%char h) 1
  end.

(** The auth middleware.  It has no [try]: a throw of [jwt.verify]
    propagates.  [decode_segment] reads object payloads only, the shape
    [jwt.sign({ userId })] writes; an object is truthy, so the [!decoded]
    branch (reachable in the library only for a validly signed non-object
    payload such as [0]) is not modelled. *)
Definition auth_gate (cfg : Config) (authorization : option string) : Exc GateOutcome :=
  let token := bearer_token authorization in
  if negb (truthy token) then Ok (Reject (json (BMessage "Unauthorized") 401))
  else
    match token with
    | Some t =>
        match jwt_verify t (jwt_secret cfg) with
        | Throw e => Throw e
        | Ok decoded => Ok (Pass decoded)
        end
    | None => Ok (Reject (json (BMessage "Unauthorized") 401))
    end.

(** [POST /api/v1/todo]; [ctx_userId] is [c.get('userId')]. *)
Definition create_todo (cfg : Config) (now : nat) (ctx_userId : option string)
    (req : Request) : M Response :=
  try_catch (
    obj <- req_json req ;;
    let title := jget "title" obj in
    let description := jget "description" obj in
    if negb (jtruthy title) || negb (jtruthy description)
    then ret (json (BMessage "Please provide title and description") 400)
    else
      let userId := ctx_userId in
      _ <- getPrismaClient cfg ;;
      t <- as_string "title" title ;;
      d <- as_string "description" description ;;
      u <- match userId with
           | Some u => ret u
           | None => throw "Argument `userId` is missing."
           end ;;
      todo <- todo_create t d u now ;;
      ret (json (BTodo todo) 200))
    internal_error.

(** [GET /api/v1/todos] *)
Definition list_todos (cfg : Config) (ctx_userId : option string) (req : Request)
    : M Response :=
  try_catch (
    let token := bearer_token (req_authorization req) in
    if negb (truthy token) then ret (json (BMessage "Unauthorized") 401)
    else
      let userId := ctx_userId in
      _ <- getPrismaClient cfg ;;
      todos <- todo_findMany userId ;;
      ret (json (BTodos todos) 200))
    internal_error.

(** ** The Hono application *)

(** The middleware registered with [app.use] runs before every route
    registered after it. *)
Definition protected (cfg : Config) (req : Request)
    (handler : option string -> M Response) : M Response :=
  match auth_gate cfg (req_authorization req) with
  | Throw e => throw e
  | Ok (Reject r) => ret r
  | Ok (Pass uid) => handler uid
  end.

Definition not_found : Response := json (BText "404 Not Found") 404.

Definition route (cfg : Config) (salt : list byte) (now : nat) (req : Request)
    : M Response :=
  let path := req_path req in
  match req_method req with
  | POST =>
      if String.eqb path "/api/v1/signup" then signup cfg salt req
      else if String.eqb path "/api/v1/signin" then signin cfg req
      else if String.eqb path "/api/v1/todo"
      then protected cfg req (fun uid => create_todo cfg now uid req)
      else protected cfg req (fun _ => ret not_found)
  | GET =>
      if String.eqb path "/api/v1/todos"
      then protected cfg req (fun uid => list_todos cfg uid req)
      else protected cfg req (fun _ => ret not_found)
  | OTHER_METHOD => protected cfg req (fun _ => ret not_found)
  end.

(** [app.fetch]: an error escaping the handlers reaches Hono's default
    [onError], which answers 500 with a plain-text body. *)
Definition app (cfg : Config) (salt : list byte) (now : nat) (req : Request)
    (s : Store) : Response * Store :=
  match route cfg salt now req s with
  | (Ok r, s') => (r, s')
  | (Throw _, s') => (json (BText "Internal Server Error") 500, s')
  end.

End Worker.

(** ** A concrete instance of the primitives

    Hex encodings stand in for base64url; they keep the shape properties
    (no '.', ' ' or ':' inside a segment) the token format relies on. *)
Definition sample_crypto : Crypto := {|
  scrypt := fun password salt =>
    firstn 32 (list_byte_of_string password ++ salt ++ repeat x00 32);
  hs256 := fun secret input =>
    String "h" (bytesToHex (list_byte_of_string (secret ++ "|" ++ input)));
  encode_segment := fun u => bytesToHex (list_byte_of_string u);
  decode_segment := fun seg =>
    match hexToBytes seg with
    | Ok b => Some (Some (string_of_list_byte b))
    | Throw _ => None
    end
|}.

Definition sample_cfg : Config := {|
  env_DATABASE_URL := Some "prisma://db";
  env_JWT_SECRET := Some "s3cret";
  process_DATABASE_URL := None;
  process_JWT_SECRET := None
|}.

(** A configuration without any database URL. *)
Definition no_db_cfg : Config := {|
  env_DATABASE_URL := None;
  env_JWT_SECRET := Some "s3cret";
  process_DATABASE_URL := None;
  process_JWT_SECRET := None
|}.

Definition empty_store : Store := {| users := []; todos := []; next_id := 1 |}.

(** The key and value read by the code, whatever else the body carries. *)
Definition body_view (b : option JObj) :=
  option_map (fun o => (jget "email" o, jget "password" o,
                        jget "title" o, jget "description" o)) b.

(** The salt and hash parts of a stored credential, [""] when absent. *)
Definition salt_part (hashed : string) : string := nth 0 (split ":"%char hashed) "".
Definition hash_part (hashed : string) : string := nth 1 (split ":"%char hashed) "".

(** A signup request carrying the given JSON fields. *)
Definition signup_request (email password : string) : Request := {|
  req_method := POST;
  req_path := "/api/v1/signup";
  req_authorization := None;
  req_body := Some [("email", JStr email); ("password", JStr password)]
|}.

(** [req] with its JSON body replaced. *)
Definition with_body (req : Request) (b : option JObj) : Request := {|
  req_method := req_method req;
  req_path := req_path req;
  req_authorization := req_authorization req;
  req_body := b
|}.

Definition todos_request (authorization : option string) : Request := {|
  req_method := GET;
  req_path := "/api/v1/todos";
  req_authorization := authorization;
  req_body := None
|}.

Definition todo_request (authorization : option string) (obj : JObj) : Request := {|
  req_method := POST;
  req_path := "/api/v1/todo";
  req_authorization := authorization;
  req_body := Some obj
|}.

(** A token signed by [sample_crypto] under [sample_cfg]'s secret, and one
    signed for the same user under another secret. *)
Definition sample_token : string :=
  match @jwt_sign sample_crypto "1" (jwt_secret sample_cfg) with
  | Ok t => t
  | Throw _ => ""
  end.

Definition forged_token : string :=
  match @jwt_sign sample_crypto "1" "not-the-secret" with
  | Ok t => t
  | Throw _ => ""
  end.

Definition sample_todo (id owner : string) : Todo := {|
  todo_id := id; todo_title := "t"; todo_description := "d";
  todo_completed := false; todo_userId := owner;
  todo_createdAt := 0; todo_updatedAt := 0
|}.

(** A store with one todo of user "1" and one of user "2". *)
Definition sample_store : Store := {|
  users := [];
  todos := [sample_todo "10" "1"; sample_todo "11" "2"];
  next_id := 12
|}.

(** A store holding one user, registered with "hunter2". *)
Definition one_user : User := {|
  user_id := "1"; user_email := "a@x.com";
  user_password := @hashPassword sample_crypto (repeat x07 16) "hunter2"
|}.

Definition one_user_store : Store := {| users := [one_user]; todos := []; next_id := 2 |}.

(** A create-todo body that asks for a completed todo. *)
Definition completed_body : JObj :=
  [("title", JStr "t"); ("description", JStr "d"); ("completed", JBool true)].

(** A request with a JSON object body. *)
Definition body_request (m : Method) (path : string) (authorization : option string)
    (obj : JObj) : Request := {|
  req_method := m;
  req_path := path;
  req_authorization := authorization;
  req_body := Some obj
|}.

(** The condition under which [getPrismaClient] does not throw. *)
Definition db_configured (cfg : Config) : bool :=
  truthy (env_DATABASE_URL cfg) || truthy (process_DATABASE_URL cfg).

(** The method and path pairs the application registers a handler for. *)
Definition known_route (req : Request) : bool :=
  match req_method req with
  | POST => String.eqb (req_path req) "/api/v1/signup" ||
            String.eqb (req_path req) "/api/v1/signin" ||
            String.eqb (req_path req) "/api/v1/todo"
  | GET => String.eqb (req_path req) "/api/v1/todos"
  | OTHER_METHOD => false
  end.

(** The message [getPrismaClient] throws without a database URL. *)
Definition no_db_message : string :=
  "DATABASE_URL is not set. Please configure it in wrangler.jsonc or environment variables.".

(** [s'] extends [s]: users and todos are only appended, ids only grow. *)
Definition extends (s s' : Store) : Prop :=
  (exists us ts, users s' = (users s ++ us)%list /\ todos s' = (todos s ++ ts)%list) /\
  next_id s <= next_id s'.

(** Every run of [m] relates its initial and final store by [R]. *)
Definition steps {A} (R : Store -> Store -> Prop) (m : M A) : Prop :=
  forall s r s', m s = (r, s') -> R s s'.

(** No two stored users share an email. *)
Definition emails_unique (s : Store) : Prop :=
  NoDup (map user_email (users s)).

(** A step that keeps emails distinct. *)
Definition unique_kept (s s' : Store) : Prop := emails_unique s -> emails_unique s'.

(** The worker serving a sequence of requests, each with the salt and
    time it draws, against the one database. *)
Fixpoint serve `{Crypto} (cfg : Config) (reqs : list (list byte * nat * Request))
    (s : Store) : list Response * Store :=
  match reqs with
  | [] => ([], s)
  | (salt, now, req) :: rest =>
      let (r, s1) := app cfg salt now req s in
      let (rs, s2) := serve cfg rest s1 in
      (r :: rs, s2)
  end.

(** A postcondition on the value a handler computation returns. *)
Definition post {A} (P : A -> Prop) (m : M A) : Prop :=
  forall s a s', m s = (Ok a, s') -> P a.

(** * Lemmas *)

(** ** Strings and hex *)

Lemma no_char_app (c : ascii) (a b : string) :
  no_char c (a ++ b) = no_char c a && no_char c b.
Proof.
  induction a as [|x a IH]; simpl; [reflexivity|].
  rewrite IH, andb_assoc; reflexivity.
Qed.

Lemma split_no_char (c : ascii) (s : string) :
  no_char c s = true -> split c s = [s].
Proof.
  induction s as [|x s IH]; simpl; [reflexivity|].
  intros H. apply andb_prop in H as [H1 H2].
  apply negb_true_iff in H1. rewrite H1, (IH H2). reflexivity.
Qed.

Lemma split_sep (c : ascii) (a b : string) :
  no_char c a = true -> split c (a ++ String c b) = a :: split c b.
Proof.
  induction a as [|x a IH]; simpl; intros H.
  - rewrite Ascii.eqb_refl. reflexivity.
  - apply andb_prop in H as [H1 H2].
    apply negb_true_iff in H1. rewrite H1, (IH H2). reflexivity.
Qed.

Lemma append_assoc_str (a b c : string) : (a ++ b) ++ c = a ++ (b ++ c).
Proof. induction a as [|x a IH]; simpl; congruence. Qed.

Lemma hex_byte (b : byte) :
  asciiToBase16 (hex_digit (Byte.to_nat b / 16)) = Some (Byte.to_nat b / 16) /\
  asciiToBase16 (hex_digit (Byte.to_nat b mod 16)) = Some (Byte.to_nat b mod 16) /\
  u8 (Byte.to_nat b / 16 * 16 + Byte.to_nat b mod 16) = b.
Proof. destruct b; vm_compute; auto. Qed.

Lemma hex_pairs_bytesToHex (l : list byte) (hi : nat) :
  hex_pairs hi (bytesToHex l) = Ok l.
Proof.
  revert hi. induction l as [|b l IH]; intros hi; [reflexivity|].
  cbn [bytesToHex hex_pairs].
  destruct (hex_byte b) as (H1 & H2 & H3).
  rewrite H1, H2, IH, H3. reflexivity.
Qed.

Lemma length_bytesToHex (l : list byte) :
  String.length (bytesToHex l) = 2 * length l.
Proof. induction l as [|b l IH]; simpl; [reflexivity|]. rewrite IH. lia. Qed.

(** [hexToBytes] inverts [bytesToHex]. *)
Lemma hexToBytes_bytesToHex (l : list byte) : hexToBytes (bytesToHex l) = Ok l.
Proof.
  unfold hexToBytes. rewrite length_bytesToHex.
  assert (Hodd : Nat.odd (2 * length l) = false)
    by (rewrite <- Nat.negb_even, Nat.even_mul; reflexivity).
  rewrite Hodd. apply hex_pairs_bytesToHex.
Qed.

Lemma hex_byte_chars (b : byte) (c : ascii) :
  In c [":"; "."; " "]%char ->
  Ascii.eqb (hex_digit (Byte.to_nat b / 16)) c = false /\
  Ascii.eqb (hex_digit (Byte.to_nat b mod 16)) c = false.
Proof. intros [<-|[<-|[<-|[]]]]; destruct b; vm_compute; auto. Qed.

(** Hex text has no separator of the credential or token formats. *)
Lemma no_char_bytesToHex (c : ascii) (l : list byte) :
  In c [":"; "."; " "]%char -> no_char c (bytesToHex l) = true.
Proof.
  intros Hc. induction l as [|b l IH]; [reflexivity|].
  cbn [bytesToHex no_char].
  destruct (hex_byte_chars b c Hc) as [H1 H2]. rewrite H1, H2, IH. reflexivity.
Qed.

(** ** Postconditions of handler computations *)

Lemma post_ret {A} (P : A -> Prop) (a : A) : P a -> post P (ret a).
Proof. intros HP s a' s' E. inversion E; subst; exact HP. Qed.

Lemma post_throw {A} (P : A -> Prop) (e : string) : post P (throw e).
Proof. intros s a s' E. discriminate E. Qed.

Lemma post_bind {A B} (Q : A -> Prop) (P : B -> Prop) (m : M A) (k : A -> M B) :
  post Q m -> (forall a, Q a -> post P (k a)) -> post P (bind m k).
Proof.
  intros Hm Hk s b s' E. unfold bind in E.
  destruct (m s) as [[a|e] s1] eqn:Em; [|discriminate E].
  exact (Hk a (Hm s a s1 Em) s1 b s' E).
Qed.

Lemma post_bind_any {A B} (P : B -> Prop) (m : M A) (k : A -> M B) :
  (forall a, post P (k a)) -> post P (bind m k).
Proof.
  intros Hk. apply (post_bind (fun _ => True)); [|intros a _; apply Hk].
  intros s a s' _. exact I.
Qed.

Lemma post_bind_ret {A B} (P : B -> Prop) (a : A) (k : A -> M B) :
  post P (k a) -> post P (bind (ret a) k).
Proof. intros H s b s' E. exact (H s b s' E). Qed.

Lemma post_bind_lift_throw {A B} (P : B -> Prop) (e : string) (k : A -> M B) :
  post P (bind (lift (Throw e)) k).
Proof. intros s b s' E. discriminate E. Qed.

Lemma post_try {A} (P : A -> Prop) (m : M A) (h : string -> M A) :
  post P m -> (forall e, post P (h e)) -> post P (try_catch m h).
Proof.
  intros Hm Hh s a s' E. unfold try_catch in E.
  destruct (m s) as [[a1|e] s1] eqn:Em.
  - inversion E; subst. exact (Hm s a s' Em).
  - exact (Hh e s1 a s' E).
Qed.

Section Handlers.

Context `{Crypto}.

Lemma post_todo_create (ti d u : string) (now : nat) :
  post (fun t => todo_completed t = false /\ todo_userId t = u)
    (todo_create ti d u now).
Proof. intros s a s' E. inversion E; subst. simpl. auto. Qed.

Lemma post_todo_findMany (u : string) :
  post (Forall (fun t => todo_userId t = u)) (todo_findMany (Some u)).
Proof.
  intros s a s' E. inversion E; subst.
  apply Forall_forall. intros t Ht. apply filter_In in Ht as [_ Ht].
  apply String.eqb_eq. exact Ht.
Qed.

Lemma gate_reject (cfg : Config) (a : option string) (r : Response) :
  auth_gate cfg a = Ok (Reject r) -> r = json (BMessage "Unauthorized") 401.
Proof.
  unfold auth_gate. cbv zeta.
  destruct (truthy (bearer_token a)); cbn; [|congruence].
  destruct (bearer_token a) as [t|]; [|congruence].
  destruct (jwt_verify t (jwt_secret cfg)); discriminate.
Qed.

(** The middleware either answers 401 or passes to the handler. *)
Lemma post_protected (P : Response -> Prop) (cfg : Config) (req : Request)
    (handler : option string -> M Response) :
  P (json (BMessage "Unauthorized") 401) -> (forall uid, post P (handler uid)) ->
  post P (protected cfg req handler).
Proof.
  intros H401 Hh. unfold protected.
  destruct (auth_gate cfg (req_authorization req)) as [[r|uid]|e] eqn:E.
  - rewrite (gate_reject _ _ _ E). apply post_ret. exact H401.
  - apply Hh.
  - apply post_throw.
Qed.

End Handlers.

(** Steps through a handler, splitting on its branches. *)
Ltac hoare :=
  repeat (cbv beta iota zeta;
    match goal with
    | |- post _ (try_catch _ _) => apply post_try; [|intro]
    | |- post _ (bind (ret _) _) => apply post_bind_ret
    | |- post _ (bind (lift (Throw _)) _) => apply post_bind_lift_throw
    | |- post _ (bind (lift (jwt_sign _ _)) _) => fail 1
    | |- post _ (internal_error _) => unfold internal_error
    | |- post _ (protected _ _ _) => apply post_protected; [|intro]
    | |- post _ (bind (todo_create _ _ _ _) _) =>
        apply (post_bind _ _ _ _ (post_todo_create _ _ _ _)); intros ? [? ?]
    | |- post _ (bind (todo_findMany (Some _)) _) =>
        apply (post_bind _ _ _ _ (post_todo_findMany _)); intros ? ?
    | |- post _ (bind _ _) => apply post_bind_any; intro
    | |- post _ (ret _) => apply post_ret
    | |- post _ (throw _) => apply post_throw
    | |- post _ (if ?b then _ else _) => destruct b
    | |- post _ (match ?x with _ => _ end) => destruct x
    end).

(** * Claims *)

Section Claims.

Context `{Crypto}.

Lemma truthy_bytesToHex (l : list byte) :
  l <> [] -> truthy (Some (bytesToHex l)) = true.
Proof. destruct l; [congruence|reflexivity]. Qed.

Lemma split_credential (a b : list byte) :
  split ":"%char (bytesToHex a ++ ":" ++ bytesToHex b) = [bytesToHex a; bytesToHex b].
Proof.
  change (":" ++ bytesToHex b) with (String ":"%char (bytesToHex b)).
  rewrite split_sep by (apply no_char_bytesToHex; simpl; auto).
  rewrite split_no_char by (apply no_char_bytesToHex; simpl; auto).
  reflexivity.
Qed.

(** C5: for every password P and every 16-byte salt, verifying P against
    the credential [hashPassword] builds from P succeeds. *)
Theorem verifyPassword_hashPassword
    (scrypt_dkLen : forall p s, length (scrypt p s) = 32)
    (salt : list byte) (password : string) (Hsalt : length salt = 16) :
  verifyPassword password (hashPassword salt password) = Ok true.
Proof.
  unfold verifyPassword, hashPassword.
  rewrite split_credential. cbn [nth_error].
  rewrite (truthy_bytesToHex salt) by (intros E; rewrite E in Hsalt; discriminate).
  rewrite truthy_bytesToHex
    by (intros E; pose proof (scrypt_dkLen password salt) as L;
        rewrite E in L; discriminate).
  cbn [negb orb]. rewrite hexToBytes_bytesToHex, String.eqb_refl. reflexivity.
Qed.

Lemma truthy_nth_error (l : list string) (i : nat) :
  truthy (nth_error l i) = negb (String.eqb (nth i l "") "").
Proof.
  revert i. induction l as [|x l IH]; intros [|i]; simpl; auto.
  destruct x; reflexivity.
Qed.

Lemma nth_error_nth_ne (l : list string) (i : nat) :
  nth i l "" <> "" -> nth_error l i = Some (nth i l "").
Proof.
  intros Hne. destruct (Nat.lt_ge_cases i (length l)) as [Hlt|Hge].
  - apply nth_error_nth'. exact Hlt.
  - exfalso. apply Hne. apply nth_overflow. exact Hge.
Qed.

(** C2 (amended): [verifyPassword] returns false when the stored
    credential has no ':' separator, when its salt or hash part is empty,
    and when its salt part is valid hex but its hash part is not.  When
    both parts are non-empty and the salt part is not valid hex (odd
    length or a non-hex character), [hexToBytes] throws and
    [verifyPassword] throws the same error instead of returning false; it
    returns a boolean exactly when the salt part is valid hex. *)
Theorem verifyPassword_malformed (password hashed : string) :
  ((no_char ":"%char hashed = true \/ salt_part hashed = "" \/ hash_part hashed = "") ->
     verifyPassword password hashed = Ok false) /\
  (salt_part hashed <> "" -> hash_part hashed <> "" ->
     (forall salt, hexToBytes (salt_part hashed) = Ok salt ->
        (forall l, hexToBytes (hash_part hashed) <> Ok l) ->
        verifyPassword password hashed = Ok false) /\
     (forall e, hexToBytes (salt_part hashed) = Throw e ->
        verifyPassword password hashed = Throw e) /\
     ((exists b, verifyPassword password hashed = Ok b) <->
      (exists salt, hexToBytes (salt_part hashed) = Ok salt))).
Proof.
  unfold verifyPassword, salt_part, hash_part. cbv zeta.
  rewrite !truthy_nth_error. split.
  - intros Hc.
    assert (E : nth 0 (split ":"%char hashed) "" = "" \/
                nth 1 (split ":"%char hashed) "" = "").
    { destruct Hc as [Hc|Hc]; [right; rewrite split_no_char by exact Hc; reflexivity
                              | exact Hc]. }
    destruct E as [E|E]; rewrite E; simpl; [reflexivity|].
    rewrite orb_true_r. reflexivity.
  - intros H1 H2.
    rewrite (proj2 (String.eqb_neq _ _) H1), (proj2 (String.eqb_neq _ _) H2).
    cbn [negb orb].
    rewrite (nth_error_nth_ne _ 0 H1), (nth_error_nth_ne _ 1 H2).
    destruct (hexToBytes (nth 0 (split ":"%char hashed) "")) as [salt|e].
    + split; [|split; [intros e F; discriminate F | split; intros _; eauto]].
      intros salt' E Hnh. inversion E; subst salt'.
      destruct (String.eqb (bytesToHex (scrypt password salt))
                  (nth 1 (split ":"%char hashed) "")) eqn:Eq; [|reflexivity].
      apply String.eqb_eq in Eq. exfalso.
      apply (Hnh (scrypt password salt)). rewrite <- Eq. apply hexToBytes_bytesToHex.
    + split; [intros salt' F; discriminate F|].
      split; [intros e' E; inversion E; reflexivity|].
      split; intros [x Ex]; discriminate Ex.
Qed.

Lemma jwt_sign_empty (userId : string) :
  jwt_sign userId "" = Throw "secretOrPrivateKey must have a value".
Proof. reflexivity. Qed.

(** C4: when [JWT_SECRET] is absent or empty in both the bindings and
    [process.env], token issuance throws a configuration error, and the
    signin handler never answers 200 nor hands out a token. *)
Theorem signin_empty_secret_no_token (cfg : Config) (req : Request)
    (Hsecret : jwt_secret cfg = "") :
  (forall userId, jwt_sign userId (jwt_secret cfg) =
                  Throw "secretOrPrivateKey must have a value") /\
  post (fun r => status r <> 200 /\ forall t, body r <> BToken t) (signin cfg req).
Proof.
  split; [intros; rewrite Hsecret; reflexivity|].
  unfold signin. hoare;
    try (rewrite Hsecret, jwt_sign_empty; apply post_bind_lift_throw);
    cbn; split; try discriminate; intros ? ?; discriminate.
Qed.

Lemma no_char_jwt_header (c : ascii) :
  In c ["."; " "]%char -> no_char c jwt_header = true.
Proof. intros [<-|[<-|[]]]; reflexivity. Qed.

Lemma jwt_sign_nonempty (secret userId : string) :
  String.eqb secret "" = false ->
  jwt_sign userId secret =
  Ok ((jwt_header ++ "." ++ encode_segment userId) ++ "." ++
      hs256 secret (jwt_header ++ "." ++ encode_segment userId)).
Proof. intros E. unfold jwt_sign. rewrite E. reflexivity. Qed.

(** C6: a token issued for [userId] under the configured secret is
    accepted by [jwt.verify] under the same secret, and the auth
    middleware, given it as a bearer token, binds [userId]. *)
Theorem jwt_roundtrip
    (decode_encode : forall u, decode_segment (encode_segment u) = Some (Some u))
    (encode_shape : forall u,
        no_char "."%char (encode_segment u) = true /\
        no_char " "%char (encode_segment u) = true)
    (hs256_shape : forall k m,
        hs256 k m <> "" /\ no_char "."%char (hs256 k m) = true /\
        no_char " "%char (hs256 k m) = true)
    (cfg : Config) (userId token : string)
    (Hsign : jwt_sign userId (jwt_secret cfg) = Ok token) :
  jwt_verify token (jwt_secret cfg) = Ok (Some userId) /\
  auth_gate cfg (Some ("Bearer " ++ token)) = Ok (Pass (Some userId)).
Proof.
  destruct (String.eqb (jwt_secret cfg) "") eqn:Es.
  { unfold jwt_sign in Hsign. rewrite Es in Hsign. discriminate. }
  rewrite (jwt_sign_nonempty _ _ Es) in Hsign.
  assert (Et : token = (jwt_header ++ "." ++ encode_segment userId) ++ "." ++
                 hs256 (jwt_secret cfg) (jwt_header ++ "." ++ encode_segment userId))
    by congruence.
  subst token.
  set (sec := jwt_secret cfg) in *.
  set (p := encode_segment userId).
  set (sg := hs256 sec (jwt_header ++ "." ++ p)).
  destruct (encode_shape userId) as [Pd Ps].
  destruct (hs256_shape sec (jwt_header ++ "." ++ p)) as (Sne & Sd & Ss).
  fold p in Pd, Ps. fold sg in Sne, Sd, Ss.
  assert (Etok : (jwt_header ++ "." ++ p) ++ "." ++ sg =
                 jwt_header ++ String "."%char (p ++ String "."%char sg)).
  { rewrite append_assoc_str. reflexivity. }
  pose proof (decode_encode userId) as Dp. fold p in Dp.
  assert (Hv : jwt_verify ((jwt_header ++ "." ++ p) ++ "." ++ sg) sec = Ok (Some userId)).
  { unfold jwt_verify. rewrite Etok.
    assert (Eh : String.eqb (jwt_header ++ String "."%char (p ++ String "."%char sg)) ""
                 = false) by reflexivity.
    rewrite Eh.
    rewrite split_sep by (apply no_char_jwt_header; simpl; auto).
    rewrite split_sep by exact Pd.
    rewrite (split_no_char _ sg Sd).
    rewrite Dp, Es, String.eqb_refl.
    rewrite (proj2 (String.eqb_neq sg "") Sne).
    unfold sg at 1. rewrite String.eqb_refl. reflexivity. }
  split; [exact Hv|].
  unfold auth_gate, bearer_token. cbv zeta.
  assert (Hsp : split " "%char ("Bearer " ++ (jwt_header ++ "." ++ p) ++ "." ++ sg)
                = ["Bearer"; (jwt_header ++ "." ++ p) ++ "." ++ sg]).
  { change ("Bearer " ++ ?t) with ("Bearer" ++ String " "%char t).
    rewrite split_sep by reflexivity.
    rewrite split_no_char; [reflexivity|].
    rewrite !no_char_app, no_char_jwt_header by (simpl; auto).
    simpl. rewrite Ps, Ss. reflexivity. }
  rewrite Hsp. cbn [nth_error].
  rewrite Etok.
  assert (Et : truthy (Some (jwt_header ++ String "."%char (p ++ String "."%char sg)))
               = true) by reflexivity.
  rewrite Et. cbn [negb]. rewrite <- Etok. unfold sec in Hv. rewrite Hv. reflexivity.
Qed.

Lemma find_app_str {A} (f : A -> bool) (l1 l2 : list A) :
  find f (l1 ++ l2) = match find f l1 with Some x => Some x | None => find f l2 end.
Proof. induction l1 as [|x l1 IH]; simpl; [reflexivity|]. destruct (f x); auto. Qed.

Lemma filter_none {A} (f : A -> bool) (l : list A) :
  (forall x, In x l -> f x = false) -> filter f l = [].
Proof.
  induction l as [|x l IH]; simpl; intros Hf; [reflexivity|].
  rewrite (Hf x (or_introl eq_refl)). apply IH. intros y Hy. apply Hf. right. exact Hy.
Qed.

(** C7: with the database configured, signing up twice with the same
    fresh email creates one user and returns its identifier, then answers
    400 "User already exists" leaving the store unchanged; exactly one
    user with that email is stored. *)
Theorem signup_twice_conflict (cfg : Config) (salt1 salt2 : list byte)
    (now1 now2 : nat) (email pw1 pw2 : string) (s : Store)
    (Hdb : truthy (env_DATABASE_URL cfg) || truthy (process_DATABASE_URL cfg) = true)
    (Hemail : email <> "") (Hpw1 : pw1 <> "") (Hpw2 : pw2 <> "")
    (Hfresh : forall u, In u (users s) -> user_email u <> email) :
  exists uid s1,
    app cfg salt1 now1 (signup_request email pw1) s = (json (BUserId uid) 200, s1) /\
    users s1 = (users s ++ [{| user_id := uid; user_email := email;
                               user_password := hashPassword salt1 pw1 |}])%list /\
    app cfg salt2 now2 (signup_request email pw2) s1 =
      (json (BMessage "User already exists") 400, s1) /\
    length (filter (fun u => String.eqb (user_email u) email) (users s1)) = 1.
Proof.
  assert (Hnone : forall u, In u (users s) -> String.eqb (user_email u) email = false)
    by (intros u Hu; apply String.eqb_neq; exact (Hfresh u Hu)).
  assert (Hfind : find (fun u => String.eqb (user_email u) email) (users s) = None).
  { destruct (find _ (users s)) as [u|] eqn:F; [|reflexivity].
    apply find_some in F as [Hu Fu]. rewrite (Hnone u Hu) in Fu. discriminate. }
  destruct email as [|ce email]; [congruence|].
  destruct pw1 as [|c1 pw1]; [congruence|].
  destruct pw2 as [|c2 pw2]; [congruence|].
  exists (nat_to_string (next_id s)).
  exists {| users := (users s ++ [{| user_id := nat_to_string (next_id s);
                                     user_email := String ce email;
                                     user_password := hashPassword salt1 (String c1 pw1) |}])%list;
            todos := todos s; next_id := S (next_id s) |}.
  split; [|split; [|split]].
  - unfold app, route, signup, signup_request, try_catch, bind, attempt, req_json,
      getPrismaClient, as_string, user_findFirst, user_create, ret.
    cbn -[nat_to_string hashPassword]. rewrite Hdb.
    cbn -[nat_to_string hashPassword]. rewrite Hfind. reflexivity.
  - reflexivity.
  - unfold app, route, signup, signup_request, try_catch, bind, attempt, req_json,
      getPrismaClient, as_string, user_findFirst, user_create, ret.
    cbn -[nat_to_string hashPassword]. rewrite Hdb.
    cbn -[nat_to_string hashPassword]. rewrite find_app_str, Hfind.
    cbn -[nat_to_string hashPassword]. rewrite String.eqb_refl.
    rewrite Ascii.eqb_refl. reflexivity.
  - cbn. rewrite filter_app, filter_none by exact Hnone.
    cbn -[nat_to_string hashPassword]. rewrite String.eqb_refl, Ascii.eqb_refl.
    reflexivity.
Qed.

Lemma gate_pass_token (cfg : Config) (a : option string) (u : option string) :
  auth_gate cfg a = Ok (Pass u) -> truthy (bearer_token a) = true.
Proof.
  unfold auth_gate. cbv zeta.
  destruct (truthy (bearer_token a)); [reflexivity|]. cbn. discriminate.
Qed.

(** C8: for a GET /api/v1/todos request the auth middleware admits with
    user [uid], the handler (database configured) answers 200 with exactly
    the stored todos owned by [uid], in store order. *)
Theorem list_todos_scoped (cfg : Config) (salt : list byte) (now : nat)
    (req : Request) (s : Store) (uid : string)
    (Hget : req_method req = GET) (Hpath : req_path req = "/api/v1/todos")
    (Hgate : auth_gate cfg (req_authorization req) = Ok (Pass (Some uid)))
    (Hdb : truthy (env_DATABASE_URL cfg) || truthy (process_DATABASE_URL cfg) = true) :
  exists ts,
    app cfg salt now req s = (json (BTodos ts) 200, s) /\
    ts = filter (fun t => String.eqb (todo_userId t) uid) (todos s) /\
    (forall t, In t ts <-> In t (todos s) /\ todo_userId t = uid).
Proof.
  exists (filter (fun t => String.eqb (todo_userId t) uid) (todos s)).
  split; [|split; [reflexivity|]].
  - unfold app, route. rewrite Hget, Hpath. cbn.
    unfold protected. rewrite Hgate.
    unfold list_todos, try_catch, bind, getPrismaClient, todo_findMany, ret. cbv zeta.
    rewrite (gate_pass_token _ _ _ Hgate), Hdb. reflexivity.
  - intros t. rewrite filter_In, String.eqb_eq. reflexivity.
Qed.

Lemma jget_app_other (k k' : string) (v : JVal) (obj : JObj) :
  k' <> k -> jget k (obj ++ [(k', v)])%list = jget k obj.
Proof.
  intros Hne. unfold jget. rewrite fold_left_app. cbn.
  rewrite (proj2 (String.eqb_neq _ _) Hne). reflexivity.
Qed.

(** The handlers read the JSON body only through the four fields of
    [body_view]. *)
Lemma route_body_view (cfg : Config) (salt : list byte) (now : nat)
    (req : Request) (b1 b2 : option JObj) (s : Store) :
  body_view b1 = body_view b2 ->
  route cfg salt now (with_body req b1) s = route cfg salt now (with_body req b2) s.
Proof.
  intros Hv.
  destruct b1 as [o1|], b2 as [o2|]; cbn in Hv; try discriminate.
  - injection Hv as E1 E2 E3 E4.
    unfold route, protected, with_body; cbn [req_method req_path req_authorization].
    destruct (req_method req), (auth_gate cfg (req_authorization req)) as [[r|u]|e];
    repeat match goal with |- context [if String.eqb ?a ?b then _ else _] =>
             destruct (String.eqb a b) end;
    try reflexivity;
    unfold signup, signin, create_todo, try_catch, bind, req_json, ret;
    cbn [req_body]; cbv beta iota zeta;
    rewrite ?E1, ?E2, ?E3, ?E4; reflexivity.
  - reflexivity.
Qed.

Lemma app_body_view (cfg : Config) (salt : list byte) (now : nat)
    (req : Request) (b1 b2 : option JObj) (s : Store) :
  body_view b1 = body_view b2 ->
  app cfg salt now (with_body req b1) s = app cfg salt now (with_body req b2) s.
Proof. intros Hv. unfold app. rewrite (route_body_view _ _ _ _ _ _ _ Hv). reflexivity. Qed.

Lemma body_view_extra (obj : JObj) (k : string) (v : JVal) :
  k <> "email" -> k <> "password" -> k <> "title" -> k <> "description" ->
  body_view (Some (obj ++ [(k, v)])%list) = body_view (Some obj).
Proof.
  intros H1 H2 H3 H4. cbn.
  rewrite !jget_app_other by assumption. reflexivity.
Qed.

Lemma route_todo_completed (cfg : Config) (salt : list byte) (now : nat) (req : Request) :
  post (fun r => match body r with
                 | BTodo t => todo_completed t = false
                 | _ => True
                 end) (route cfg salt now req).
Proof.
  unfold route, signup, signin, create_todo, list_todos.
  hoare; cbn; auto.
  all: apply post_bind_any; intro; hoare; cbn; auto.
Qed.

(** C3 (amended): every todo the application returns has [completed]
    false, the schema default; a [completed] field in the request body is
    ignored. *)
Theorem create_todo_completed_false (cfg : Config) (salt : list byte) (now : nat)
    (req : Request) (s : Store) :
  match body (fst (app cfg salt now req s)) with
  | BTodo t => todo_completed t = false
  | _ => True
  end /\
  (forall obj v,
     app cfg salt now (with_body req (Some (obj ++ [("completed", v)])%list)) s =
     app cfg salt now (with_body req (Some obj)) s).
Proof.
  split.
  - unfold app. destruct (route cfg salt now req s) as [[r|e] s'] eqn:E; cbn; [|exact I].
    exact (route_todo_completed cfg salt now req s r s' E).
  - intros obj v. apply app_body_view, body_view_extra; discriminate.
Qed.

Lemma route_owner (cfg : Config) (salt : list byte) (now : nat) (req : Request)
    (uid : string)
    (Hgate : auth_gate cfg (req_authorization req) = Ok (Pass (Some uid))) :
  post (fun r => match body r with
                 | BTodo t => todo_userId t = uid
                 | BTodos ts => Forall (fun t => todo_userId t = uid) ts
                 | _ => True
                 end) (route cfg salt now req).
Proof.
  unfold route, protected. rewrite Hgate.
  unfold signup, signin, create_todo, list_todos.
  hoare; cbn; auto.
  all: apply post_bind_any; intro; hoare; cbn; auto.
Qed.

(** C10: on a request the auth middleware admits with user [uid], a
    created todo is owned by [uid] and listed todos all belong to [uid];
    a [userId] field in the request body changes nothing. *)
Theorem todo_owner_from_gate (cfg : Config) (salt : list byte) (now : nat)
    (req : Request) (s : Store) (uid : string)
    (Hgate : auth_gate cfg (req_authorization req) = Ok (Pass (Some uid))) :
  match body (fst (app cfg salt now req s)) with
  | BTodo t => todo_userId t = uid
  | BTodos ts => Forall (fun t => todo_userId t = uid) ts
  | _ => True
  end /\
  (forall obj v,
     app cfg salt now (with_body req (Some (obj ++ [("userId", v)])%list)) s =
     app cfg salt now (with_body req (Some obj)) s).
Proof.
  split.
  - unfold app. destruct (route cfg salt now req s) as [[r|e] s'] eqn:E; cbn; [|exact I].
    exact (route_owner cfg salt now req uid Hgate s r s' E).
  - intros obj v. apply app_body_view, body_view_extra; discriminate.
Qed.

(** C9 (amended): when the Authorization header is absent or has no
    non-empty second space-separated word, the middleware answers 401
    whatever the secret and token service, and no handler runs; the first
    word (the scheme) is not inspected. *)
Theorem gate_rejects_without_token (cfg : Config) (req : Request)
    (handler : option string -> M Response) (s : Store)
    (Hnotoken : truthy (bearer_token (req_authorization req)) = false) :
  auth_gate cfg (req_authorization req) = Ok (Reject (json (BMessage "Unauthorized") 401)) /\
  protected cfg req handler s = (Ok (json (BMessage "Unauthorized") 401), s) /\
  (forall scheme token,
     no_char " "%char scheme = true -> no_char " "%char token = true ->
     bearer_token (Some (scheme ++ " " ++ token)) = Some token).
Proof.
  assert (Hg : auth_gate cfg (req_authorization req) =
               Ok (Reject (json (BMessage "Unauthorized") 401))).
  { unfold auth_gate. cbv zeta. rewrite Hnotoken. reflexivity. }
  split; [exact Hg|split].
  - unfold protected. rewrite Hg. reflexivity.
  - intros scheme token Hs Ht. unfold bearer_token.
    change (" " ++ token) with (String " "%char token).
    rewrite split_sep by exact Hs. rewrite split_no_char by exact Ht. reflexivity.
Qed.

End Claims.

(** ** The sample primitives satisfy the shape laws *)

Lemma sample_scrypt_dkLen (p : string) (salt : list byte) :
  length (@scrypt sample_crypto p salt) = 32.
Proof.
  cbn [scrypt sample_crypto]. rewrite length_firstn, !length_app, repeat_length. lia.
Qed.

Lemma sample_decode_encode (u : string) :
  @decode_segment sample_crypto (@encode_segment sample_crypto u) = Some (Some u).
Proof.
  cbn [decode_segment encode_segment sample_crypto].
  rewrite hexToBytes_bytesToHex, string_of_list_byte_of_string. reflexivity.
Qed.

Lemma sample_encode_shape (u : string) :
  no_char "."%char (@encode_segment sample_crypto u) = true /\
  no_char " "%char (@encode_segment sample_crypto u) = true.
Proof. split; apply no_char_bytesToHex; simpl; auto. Qed.

Lemma sample_hs256_shape (k m : string) :
  @hs256 sample_crypto k m <> "" /\
  no_char "."%char (@hs256 sample_crypto k m) = true /\
  no_char " "%char (@hs256 sample_crypto k m) = true.
Proof.
  cbn [hs256 sample_crypto]. split; [discriminate|].
  split; cbn [no_char]; rewrite no_char_bytesToHex by (simpl; auto); reflexivity.
Qed.

(** C1 (code defect): a bearer token that fails [jwt.verify] is not
    turned into a 401.  The middleware has no [try], so the
    [JsonWebTokenError] escapes to Hono's default error handler, which
    answers 500: for a malformed token under any token service, and for a
    token signed with another secret. *)
Theorem gate_invalid_token_500 :
  (forall (C : Crypto) (salt : list byte) (now : nat) (s : Store),
     @app C sample_cfg salt now (todos_request (Some "Bearer abc")) s =
     (json (BText "Internal Server Error") 500, s)) /\
  fst (@app sample_crypto sample_cfg [] 0
         (todos_request (Some ("Bearer " ++ forged_token))) sample_store) =
  json (BText "Internal Server Error") 500.
Proof. split; [intros; reflexivity | vm_compute; reflexivity]. Qed.

(** C2 counterexample: a stored credential whose salt part is not hex
    makes [verifyPassword] throw noble's [hexToBytes] error instead of
    returning false. *)
Lemma verifyPassword_nonhex_throws :
  @verifyPassword sample_crypto "hunter2" "zz:00" =
    Throw ("hex string expected, got non-hex character " ++
           String dquote ("zz" ++ String dquote " at index 0")) /\
  @verifyPassword sample_crypto "hunter2" "abc:00" =
    Throw "hex string expected, got unpadded hex of length 3".
Proof. split; vm_compute; reflexivity. Qed.

(** C3 counterexample: an authenticated create with [completed: true]
    stores and returns a todo with [completed] false. *)
Lemma create_todo_completed_ignored :
  jget "completed" completed_body = Some (JBool true) /\
  fst (@app sample_crypto sample_cfg [] 7
         (todo_request (Some ("Bearer " ++ sample_token)) completed_body) empty_store) =
  json (BTodo {| todo_id := "1"; todo_title := "t"; todo_description := "d";
                 todo_completed := false; todo_userId := "1";
                 todo_createdAt := 7; todo_updatedAt := 7 |}) 200.
Proof. split; vm_compute; reflexivity. Qed.

(** C9 counterexample: a header with the scheme "Basic" instead of
    "Bearer" is validated and admitted; the list handler answers 200. *)
Lemma gate_ignores_scheme :
  fst (@app sample_crypto sample_cfg [] 0
         (todos_request (Some ("Basic " ++ sample_token))) sample_store) =
  json (BTodos [sample_todo "10" "1"]) 200.
Proof. vm_compute. reflexivity. Qed.

(** ** Witnesses: each theorem with hypotheses, applied to a concrete input *)

Definition no_secret_cfg : Config := {|
  env_DATABASE_URL := Some "prisma://db";
  env_JWT_SECRET := Some "";
  process_DATABASE_URL := None;
  process_JWT_SECRET := None
|}.

Lemma signin_empty_secret_no_token_witness :
  jwt_secret no_secret_cfg = "" /\
  post (fun r => status r <> 200 /\ forall t, body r <> BToken t)
    (@signin sample_crypto no_secret_cfg (signup_request "a@x.com" "hunter2")).
Proof.
  split; [reflexivity|].
  apply (@signin_empty_secret_no_token sample_crypto no_secret_cfg). reflexivity.
Defined.

Lemma verifyPassword_hashPassword_witness :
  length (repeat x07 16) = 16 /\
  @verifyPassword sample_crypto "hunter2"
    (@hashPassword sample_crypto (repeat x07 16) "hunter2") = Ok true.
Proof.
  split; [reflexivity|].
  apply (@verifyPassword_hashPassword sample_crypto sample_scrypt_dkLen). reflexivity.
Defined.

Lemma jwt_roundtrip_witness :
  @jwt_sign sample_crypto "1" (jwt_secret sample_cfg) = Ok sample_token /\
  @jwt_verify sample_crypto sample_token (jwt_secret sample_cfg) = Ok (Some "1") /\
  @auth_gate sample_crypto sample_cfg (Some ("Bearer " ++ sample_token)) =
    Ok (Pass (Some "1")).
Proof.
  assert (Hs : @jwt_sign sample_crypto "1" (jwt_secret sample_cfg) = Ok sample_token)
    by reflexivity.
  split; [exact Hs|].
  exact (@jwt_roundtrip sample_crypto sample_decode_encode sample_encode_shape
           sample_hs256_shape sample_cfg "1" sample_token Hs).
Defined.

Lemma signup_twice_conflict_witness :
  exists uid s1,
    @app sample_crypto sample_cfg (repeat x07 16) 0
      (signup_request "a@x.com" "hunter2") empty_store = (json (BUserId uid) 200, s1) /\
    users s1 = (users empty_store ++
                [{| user_id := uid; user_email := "a@x.com";
                    user_password := @hashPassword sample_crypto (repeat x07 16) "hunter2" |}])%list /\
    @app sample_crypto sample_cfg (repeat x01 16) 1
      (signup_request "a@x.com" "other") s1 =
      (json (BMessage "User already exists") 400, s1) /\
    length (filter (fun u => String.eqb (user_email u) "a@x.com") (users s1)) = 1.
Proof.
  apply (@signup_twice_conflict sample_crypto sample_cfg); try reflexivity;
    try discriminate.
  intros u [].
Defined.

Lemma list_todos_scoped_witness :
  exists ts,
    @app sample_crypto sample_cfg [] 0
      (todos_request (Some ("Bearer " ++ sample_token))) sample_store =
      (json (BTodos ts) 200, sample_store) /\
    ts = filter (fun t => String.eqb (todo_userId t) "1") (todos sample_store) /\
    (forall t, In t ts <-> In t (todos sample_store) /\ todo_userId t = "1").
Proof.
  apply (@list_todos_scoped sample_crypto sample_cfg [] 0
           (todos_request (Some ("Bearer " ++ sample_token))) sample_store "1");
    vm_compute; reflexivity.
Defined.

Lemma gate_rejects_without_token_witness :
  @auth_gate sample_crypto sample_cfg None =
    Ok (Reject (json (BMessage "Unauthorized") 401)) /\
  @protected sample_crypto sample_cfg (todos_request None)
    (fun uid => list_todos sample_cfg uid (todos_request None))
    sample_store = (Ok (json (BMessage "Unauthorized") 401), sample_store) /\
  (forall scheme token,
     no_char " "%char scheme = true -> no_char " "%char token = true ->
     bearer_token (Some (scheme ++ " " ++ token)) = Some token).
Proof.
  apply (@gate_rejects_without_token sample_crypto sample_cfg (todos_request None)).
  reflexivity.
Defined.

Lemma todo_owner_from_gate_witness :
  let req := todo_request (Some ("Bearer " ++ sample_token))
               [("title", JStr "t"); ("description", JStr "d"); ("userId", JStr "2")] in
  match body (fst (@app sample_crypto sample_cfg [] 3 req sample_store)) with
  | BTodo t => todo_userId t = "1"
  | BTodos ts => Forall (fun t => todo_userId t = "1") ts
  | _ => True
  end /\
  (forall obj v,
     @app sample_crypto sample_cfg [] 3
       (with_body req (Some (obj ++ [("userId", v)])%list)) sample_store =
     @app sample_crypto sample_cfg [] 3 (with_body req (Some obj)) sample_store).
Proof.
  intros req.
  apply (@todo_owner_from_gate sample_crypto sample_cfg [] 3 req sample_store "1").
  vm_compute. reflexivity.
Defined.

(** * Further properties of the worker *)

Ltac run_app :=
  unfold app, route, protected, signup, signin, create_todo, list_todos,
    try_catch, bind, attempt, req_json, getPrismaClient, as_string,
    user_findFirst, user_create, todo_create, todo_findMany, ret, throw, lift,
    internal_error, body_request, db_configured in *;
  cbn -[nat_to_string hashPassword verifyPassword jwt_sign jwt_verify auth_gate].

Section Extras.

Context `{Crypto}.

(** Signup and signin answer 400 when the email or the password is
    missing or falsy, before any database access, and change nothing. *)
Theorem credentials_required (cfg : Config) (salt : list byte) (now : nat)
    (a : option string) (obj : JObj) (s : Store)
    (Hmissing : jtruthy (jget "email" obj) = false \/ jtruthy (jget "password" obj) = false) :
  app cfg salt now (body_request POST "/api/v1/signup" a obj) s =
    (json (BMessage "Please provide email and password") 400, s) /\
  app cfg salt now (body_request POST "/api/v1/signin" a obj) s =
    (json (BMessage "Please provide email and password") 400, s).
Proof.
  assert (Hc : negb (jtruthy (jget "email" obj)) || negb (jtruthy (jget "password" obj))
               = true)
    by (destruct Hmissing as [E|E]; rewrite E; [reflexivity | apply orb_true_r]).
  split; run_app; rewrite Hc; reflexivity.
Qed.

(** Signup with both fields present but no database URL configured
    answers 500 "Database connection error" with the configuration
    message, and changes nothing. *)
Theorem signup_without_database (cfg : Config) (salt : list byte) (now : nat)
    (a : option string) (obj : JObj) (s : Store)
    (Hdb : db_configured cfg = false)
    (Hfields : jtruthy (jget "email" obj) = true /\ jtruthy (jget "password" obj) = true) :
  app cfg salt now (body_request POST "/api/v1/signup" a obj) s =
    (json (BMessageError "Database connection error" no_db_message) 500, s).
Proof.
  destruct Hfields as [E1 E2]. run_app. rewrite E1, E2. cbn. rewrite Hdb. reflexivity.
Qed.

(** Signin for an email no stored user has answers 400 "user doesn't
    exist" and changes nothing. *)
Theorem signin_unknown_email (cfg : Config) (salt : list byte) (now : nat)
    (a : option string) (obj : JObj) (s : Store) (email : string)
    (Hdb : db_configured cfg = true)
    (Hemail : jget "email" obj = Some (JStr email)) (Hne : email <> "")
    (Hpw : jtruthy (jget "password" obj) = true)
    (Hunknown : forall u, In u (users s) -> user_email u <> email) :
  app cfg salt now (body_request POST "/api/v1/signin" a obj) s =
    (json (BMessage "user doesn't exist") 400, s).
Proof.
  assert (Hfind : find (fun u => String.eqb (user_email u) email) (users s) = None).
  { destruct (find _ (users s)) as [u|] eqn:F; [|reflexivity].
    apply find_some in F as [Hu Fu]. apply String.eqb_eq in Fu.
    exfalso. exact (Hunknown u Hu Fu). }
  destruct email as [|c e]; [congruence|].
  run_app. rewrite Hemail, Hpw. cbn. rewrite Hdb. cbn. rewrite Hfind. reflexivity.
Qed.

(** The routes registered before the middleware do not read the
    Authorization header: signup and signin answer the same whatever it
    holds. *)
Theorem public_routes_ignore_authorization (cfg : Config) (salt : list byte)
    (now : nat) (a1 a2 : option string) (obj : JObj) (s : Store) :
  app cfg salt now (body_request POST "/api/v1/signup" a1 obj) s =
    app cfg salt now (body_request POST "/api/v1/signup" a2 obj) s /\
  app cfg salt now (body_request POST "/api/v1/signin" a1 obj) s =
    app cfg salt now (body_request POST "/api/v1/signin" a2 obj) s.
Proof. split; run_app; reflexivity. Qed.

(** Creating a todo with a missing or falsy title or description
    answers 400 and creates nothing. *)
Theorem create_todo_fields_required (cfg : Config) (salt : list byte) (now : nat)
    (a : option string) (obj : JObj) (s : Store) (uid : option string)
    (Hgate : auth_gate cfg a = Ok (Pass uid))
    (Hmissing : jtruthy (jget "title" obj) = false \/
                jtruthy (jget "description" obj) = false) :
  app cfg salt now (body_request POST "/api/v1/todo" a obj) s =
    (json (BMessage "Please provide title and description") 400, s).
Proof.
  assert (Hc : negb (jtruthy (jget "title" obj)) || negb (jtruthy (jget "description" obj))
               = true)
    by (destruct Hmissing as [E|E]; rewrite E; [reflexivity | apply orb_true_r]).
  run_app. rewrite Hgate. cbn. rewrite Hc. reflexivity.
Qed.

(** Without a database URL, an admitted create (with title and
    description) or list request answers 500 "Internal server error"
    carrying the configuration message, and changes nothing. *)
Theorem todo_routes_without_database (cfg : Config) (salt : list byte) (now : nat)
    (a : option string) (obj : JObj) (s : Store) (uid : option string)
    (Hgate : auth_gate cfg a = Ok (Pass uid))
    (Hdb : db_configured cfg = false)
    (Hfields : jtruthy (jget "title" obj) = true /\
               jtruthy (jget "description" obj) = true) :
  app cfg salt now (body_request POST "/api/v1/todo" a obj) s =
    (json (BMessageError "Internal server error" no_db_message) 500, s) /\
  app cfg salt now (todos_request a) s =
    (json (BMessageError "Internal server error" no_db_message) 500, s).
Proof.
  destruct Hfields as [E1 E2].
  pose proof (gate_pass_token _ _ _ Hgate) as Ht.
  unfold todos_request. split; run_app; rewrite Hgate; cbn.
  - rewrite E1, E2. cbn. rewrite Hdb. reflexivity.
  - rewrite Ht. cbn. rewrite Hdb. reflexivity.
Qed.

(** An admitted create with a string title and description appends one
    todo, owned by the admitted user, not completed and stamped with the
    request time, and answers it with 200; users are untouched.  A later
    list by the same user returns the user's earlier todos followed by
    the new one. *)
Theorem create_then_list (cfg : Config) (salt : list byte) (now : nat)
    (a : option string) (obj : JObj) (s : Store) (uid title description : string)
    (Hgate : auth_gate cfg a = Ok (Pass (Some uid)))
    (Hdb : db_configured cfg = true)
    (Htitle : jget "title" obj = Some (JStr title)) (Hti : title <> "")
    (Hdesc : jget "description" obj = Some (JStr description)) (Hde : description <> "") :
  let todo := {| todo_id := nat_to_string (next_id s); todo_title := title;
                 todo_description := description; todo_completed := false;
                 todo_userId := uid; todo_createdAt := now; todo_updatedAt := now |} in
  let s' := {| users := users s; todos := (todos s ++ [todo])%list;
               next_id := S (next_id s) |} in
  app cfg salt now (body_request POST "/api/v1/todo" a obj) s = (json (BTodo todo) 200, s') /\
  (forall salt' now',
     app cfg salt' now' (todos_request a) s' =
       (json (BTodos (filter (fun t => String.eqb (todo_userId t) uid) (todos s) ++ [todo])%list)
          200, s')).
Proof.
  intros todo s'.
  pose proof (gate_pass_token _ _ _ Hgate) as Ht.
  destruct title as [|c1 title]; [congruence|].
  destruct description as [|c2 description]; [congruence|].
  split.
  - run_app. rewrite Hgate. cbn. rewrite Htitle, Hdesc. cbn. rewrite Hdb. reflexivity.
  - intros salt' now'. unfold todos_request. run_app. rewrite Hgate. cbn.
    rewrite Ht. cbn. rewrite Hdb. cbn.
    rewrite filter_app. cbn. rewrite String.eqb_refl. reflexivity.
Qed.

(** A body that is not valid JSON makes signup, signin and an admitted
    create answer 500 "Internal server error", changing nothing. *)
Theorem invalid_json_body (cfg : Config) (salt : list byte) (now : nat)
    (a : option string) (s : Store) (uid : option string)
    (Hgate : auth_gate cfg a = Ok (Pass uid)) :
  let bad path := {| req_method := POST; req_path := path; req_authorization := a;
                     req_body := None |} in
  let err := (json (BMessageError "Internal server error" "Unexpected end of JSON input") 500, s) in
  app cfg salt now (bad "/api/v1/signup") s = err /\
  app cfg salt now (bad "/api/v1/signin") s = err /\
  app cfg salt now (bad "/api/v1/todo") s = err.
Proof.
  intros bad err. subst bad err.
  split; [|split]; run_app; [reflexivity | reflexivity |]. rewrite Hgate. reflexivity.
Qed.

Lemma bytesToHex_inj (a b : list byte) : bytesToHex a = bytesToHex b -> a = b.
Proof.
  intros E. apply (f_equal hexToBytes) in E.
  rewrite !hexToBytes_bytesToHex in E. congruence.
Qed.

Lemma verify_against_hash
    (scrypt_dkLen : forall p s, length (scrypt p s) = 32)
    (salt : list byte) (p p' : string) (Hsalt : length salt = 16) :
  verifyPassword p' (hashPassword salt p) =
    Ok (String.eqb (bytesToHex (scrypt p' salt)) (bytesToHex (scrypt p salt))).
Proof.
  unfold verifyPassword, hashPassword.
  rewrite split_credential. cbn [nth_error].
  rewrite (truthy_bytesToHex salt) by (intros E; rewrite E in Hsalt; discriminate).
  rewrite truthy_bytesToHex
    by (intros E; pose proof (scrypt_dkLen p salt) as L; rewrite E in L; discriminate).
  cbn [negb orb]. rewrite hexToBytes_bytesToHex. reflexivity.
Qed.

(** Checking a password P' against the credential built from P (with a
    16-byte salt) never throws: it succeeds exactly when scrypt derives the
    same key from P' as from P under that salt, and returns false
    otherwise. *)
Theorem verifyPassword_decides_key
    (scrypt_dkLen : forall p s, length (scrypt p s) = 32)
    (salt : list byte) (p p' : string) (Hsalt : length salt = 16) :
  (verifyPassword p' (hashPassword salt p) = Ok true /\ scrypt p' salt = scrypt p salt) \/
  (verifyPassword p' (hashPassword salt p) = Ok false /\ scrypt p' salt <> scrypt p salt).
Proof.
  rewrite (verify_against_hash scrypt_dkLen salt p p' Hsalt).
  destruct (String.eqb (bytesToHex (scrypt p' salt)) (bytesToHex (scrypt p salt))) eqn:E.
  - left. split; [reflexivity|]. apply bytesToHex_inj, String.eqb_eq, E.
  - right. split; [reflexivity|]. intros Heq. rewrite Heq, String.eqb_refl in E.
    discriminate.
Qed.

(** The stored credential has the shape [hex(salt):hex(key)]: splitting it
    at ':' gives exactly two parts that decode back to the salt and the
    derived key; with a 16-byte salt and a 32-byte key it is 97
    characters long. *)
Theorem hashPassword_format (salt : list byte) (p : string) :
  split ":"%char (hashPassword salt p) = [bytesToHex salt; bytesToHex (scrypt p salt)] /\
  hexToBytes (bytesToHex salt) = Ok salt /\
  hexToBytes (bytesToHex (scrypt p salt)) = Ok (scrypt p salt) /\
  (length salt = 16 -> length (scrypt p salt) = 32 ->
   String.length (hashPassword salt p) = 97).
Proof.
  split; [apply split_credential|].
  split; [apply hexToBytes_bytesToHex|].
  split; [apply hexToBytes_bytesToHex|].
  intros Hs Hk. unfold hashPassword.
  assert (Hlen : forall x y, String.length (x ++ y) = String.length x + String.length y).
  { induction x as [|c x IH]; intros y; simpl; [reflexivity|]. rewrite IH. reflexivity. }
  rewrite !Hlen, !length_bytesToHex, Hs, Hk. reflexivity.
Qed.

(** Signin with the right email but a password from which scrypt derives
    another key than the stored one answers 400 "Invalid password" and
    changes nothing. *)
Theorem signin_wrong_password
    (scrypt_dkLen : forall p s, length (scrypt p s) = 32)
    (cfg : Config) (salt0 : list byte) (now : nat) (a : option string) (obj : JObj)
    (s : Store) (u : User) (email p p' : string) (salt : list byte)
    (Hdb : db_configured cfg = true)
    (Hemail : jget "email" obj = Some (JStr email)) (Hne : email <> "")
    (Hpw : jget "password" obj = Some (JStr p')) (Hpne : p' <> "")
    (Hfind : find (fun v => String.eqb (user_email v) email) (users s) = Some u)
    (Hstored : user_password u = hashPassword salt p) (Hsalt : length salt = 16)
    (Hkey : scrypt p' salt <> scrypt p salt) :
  app cfg salt0 now (body_request POST "/api/v1/signin" a obj) s =
    (json (BMessage "Invalid password") 400, s).
Proof.
  assert (Hv : verifyPassword p' (user_password u) = Ok false).
  { rewrite Hstored, (verify_against_hash scrypt_dkLen salt p p' Hsalt).
    destruct (String.eqb _ _) eqn:E; [|reflexivity].
    apply String.eqb_eq, bytesToHex_inj in E. contradiction. }
  destruct email as [|c e]; [congruence|].
  destruct p' as [|c' p'']; [congruence|].
  run_app. rewrite Hemail, Hpw. cbn. rewrite Hdb. cbn. rewrite Hfind. cbn.
  rewrite Hv. reflexivity.
Qed.

Lemma issued_token_accepted
    (decode_encode : forall u, decode_segment (encode_segment u) = Some (Some u))
    (encode_shape : forall u,
        no_char "."%char (encode_segment u) = true /\
        no_char " "%char (encode_segment u) = true)
    (hs256_shape : forall k m,
        hs256 k m <> "" /\ no_char "."%char (hs256 k m) = true /\
        no_char " "%char (hs256 k m) = true)
    (cfg : Config) (userId token : string)
    (Hsign : jwt_sign userId (jwt_secret cfg) = Ok token) :
  jwt_verify token (jwt_secret cfg) = Ok (Some userId) /\
  auth_gate cfg (Some ("Bearer " ++ token)) = Ok (Pass (Some userId)).
Proof.
  destruct (String.eqb (jwt_secret cfg) "") eqn:Es.
  { unfold jwt_sign in Hsign. rewrite Es in Hsign. discriminate. }
  rewrite (jwt_sign_nonempty _ _ Es) in Hsign.
  assert (Et : token = (jwt_header ++ "." ++ encode_segment userId) ++ "." ++
                 hs256 (jwt_secret cfg) (jwt_header ++ "." ++ encode_segment userId))
    by congruence.
  subst token.
  set (sec := jwt_secret cfg) in *.
  set (p := encode_segment userId).
  set (sg := hs256 sec (jwt_header ++ "." ++ p)).
  destruct (encode_shape userId) as [Pd Ps].
  destruct (hs256_shape sec (jwt_header ++ "." ++ p)) as (Sne & Sd & Ss).
  fold p in Pd, Ps. fold sg in Sne, Sd, Ss.
  assert (Etok : (jwt_header ++ "." ++ p) ++ "." ++ sg =
                 jwt_header ++ String "."%char (p ++ String "."%char sg)).
  { rewrite append_assoc_str. reflexivity. }
  pose proof (decode_encode userId) as Dp. fold p in Dp.
  assert (Hv : jwt_verify ((jwt_header ++ "." ++ p) ++ "." ++ sg) sec = Ok (Some userId)).
  { unfold jwt_verify. rewrite Etok.
    assert (Eh : String.eqb (jwt_header ++ String "."%char (p ++ String "."%char sg)) ""
                 = false) by reflexivity.
    rewrite Eh.
    rewrite split_sep by (apply no_char_jwt_header; simpl; auto).
    rewrite split_sep by exact Pd.
    rewrite (split_no_char _ sg Sd).
    rewrite Dp, Es, String.eqb_refl.
    rewrite (proj2 (String.eqb_neq sg "") Sne).
    unfold sg at 1. rewrite String.eqb_refl. reflexivity. }
  split; [exact Hv|].
  unfold auth_gate, bearer_token. cbv zeta.
  assert (Hsp : split " "%char ("Bearer " ++ (jwt_header ++ "." ++ p) ++ "." ++ sg)
                = ["Bearer"; (jwt_header ++ "." ++ p) ++ "." ++ sg]).
  { change ("Bearer " ++ ?t) with ("Bearer" ++ String " "%char t).
    rewrite split_sep by reflexivity.
    rewrite split_no_char; [reflexivity|].
    rewrite !no_char_app, no_char_jwt_header by (simpl; auto).
    simpl. rewrite Ps, Ss. reflexivity. }
  rewrite Hsp. cbn [nth_error].
  rewrite Etok.
  assert (Et : truthy (Some (jwt_header ++ String "."%char (p ++ String "."%char sg)))
               = true) by reflexivity.
  rewrite Et. cbn [negb]. rewrite <- Etok. unfold sec in Hv. rewrite Hv. reflexivity.
Qed.

(** End to end: after a signup with a fresh email (database and secret
    configured), a signin with the same credentials answers 200 with a
    token, leaves the store as signup left it, and that token, presented
    as a bearer token, makes the middleware bind the new user's id. *)
Theorem signup_signin_access
    (decode_encode : forall u, decode_segment (encode_segment u) = Some (Some u))
    (encode_shape : forall u,
        no_char "."%char (encode_segment u) = true /\
        no_char " "%char (encode_segment u) = true)
    (hs256_shape : forall k m,
        hs256 k m <> "" /\ no_char "."%char (hs256 k m) = true /\
        no_char " "%char (hs256 k m) = true)
    (scrypt_dkLen : forall p s, length (scrypt p s) = 32)
    (cfg : Config) (salt1 salt2 : list byte) (now1 now2 : nat)
    (email pw : string) (s : Store)
    (Hdb : db_configured cfg = true) (Hsecret : jwt_secret cfg <> "")
    (Hemail : email <> "") (Hpw : pw <> "") (Hsalt : length salt1 = 16)
    (Hfresh : forall u, In u (users s) -> user_email u <> email) :
  exists uid s1 token,
    app cfg salt1 now1 (signup_request email pw) s = (json (BUserId uid) 200, s1) /\
    app cfg salt2 now2
      (body_request POST "/api/v1/signin" None
         [("email", JStr email); ("password", JStr pw)]) s1 =
      (json (BToken token) 200, s1) /\
    auth_gate cfg (Some ("Bearer " ++ token)) = Ok (Pass (Some uid)).
Proof.
  assert (Hfind : find (fun u => String.eqb (user_email u) email) (users s) = None).
  { destruct (find _ (users s)) as [u|] eqn:F; [|reflexivity].
    apply find_some in F as [Hu Fu]. apply String.eqb_eq in Fu.
    exfalso. exact (Hfresh u Hu Fu). }
  assert (Es : String.eqb (jwt_secret cfg) "" = false) by (apply String.eqb_neq; exact Hsecret).
  set (uid := nat_to_string (next_id s)).
  pose proof (jwt_sign_nonempty _ uid Es) as Hsign.
  assert (Hv : verifyPassword pw (hashPassword salt1 pw) = Ok true).
  { rewrite (verify_against_hash scrypt_dkLen salt1 pw pw Hsalt), String.eqb_refl.
    reflexivity. }
  exists uid.
  exists {| users := (users s ++ [{| user_id := uid; user_email := email;
                                     user_password := hashPassword salt1 pw |}])%list;
            todos := todos s; next_id := S (next_id s) |}.
  eexists. split; [|split].
  - destruct email as [|ce email]; [congruence|].
    destruct pw as [|c1 pw]; [congruence|].
    unfold signup_request. run_app. rewrite Hdb.
    cbn -[nat_to_string hashPassword]. rewrite Hfind. reflexivity.
  - destruct email as [|ce email]; [congruence|].
    destruct pw as [|c1 pw]; [congruence|].
    run_app. rewrite Hdb. cbn -[nat_to_string hashPassword verifyPassword jwt_sign].
    rewrite find_app_str, Hfind. cbn -[nat_to_string hashPassword verifyPassword jwt_sign].
    rewrite String.eqb_refl, Ascii.eqb_refl.
    cbn -[nat_to_string hashPassword verifyPassword jwt_sign].
    rewrite Hv. cbn -[nat_to_string hashPassword verifyPassword jwt_sign].
    rewrite Hsign. reflexivity.
  - exact (proj2 (issued_token_accepted decode_encode encode_shape hs256_shape
                    cfg uid _ Hsign)).
Qed.

(** ** What a request can do to the store *)

Section Steps.

Variable R : Store -> Store -> Prop.
Hypothesis R_refl : forall s, R s s.
Hypothesis R_trans : forall s1 s2 s3, R s1 s2 -> R s2 s3 -> R s1 s3.

Lemma steps_ret {A} (a : A) : steps R (ret a).
Proof using R_refl R_trans. intros s r s' E. inversion E; subst. apply R_refl. Qed.

Lemma steps_throw {A} (e : string) : steps R (@throw A e).
Proof using R_refl R_trans. intros s r s' E. inversion E; subst. apply R_refl. Qed.

Lemma steps_lift {A} (x : Exc A) : steps R (lift x).
Proof using R_refl R_trans. intros s r s' E. inversion E; subst. apply R_refl. Qed.

Lemma steps_bind {A B} (m : M A) (k : A -> M B) :
  steps R m -> (forall a, steps R (k a)) -> steps R (bind m k).
Proof using R_refl R_trans.
  intros Hm Hk s r s' E. unfold bind in E.
  destruct (m s) as [[a|e] s1] eqn:Em.
  - exact (R_trans _ _ _ (Hm _ _ _ Em) (Hk a _ _ _ E)).
  - inversion E; subst. exact (Hm _ _ _ Em).
Qed.

Lemma steps_try {A} (m : M A) (h : string -> M A) :
  steps R m -> (forall e, steps R (h e)) -> steps R (try_catch m h).
Proof using R_refl R_trans.
  intros Hm Hh s r s' E. unfold try_catch in E.
  destruct (m s) as [[a|e] s1] eqn:Em.
  - inversion E; subst. exact (Hm _ _ _ Em).
  - exact (R_trans _ _ _ (Hm _ _ _ Em) (Hh e _ _ _ E)).
Qed.

Lemma steps_attempt {A} (m : M A) : steps R m -> steps R (attempt m).
Proof using R_refl R_trans.
  intros Hm s r s' E. unfold attempt in E.
  destruct (m s) as [r1 s1] eqn:Em. inversion E; subst. exact (Hm _ _ _ Em).
Qed.

Lemma steps_user_findFirst (e : string) : steps R (user_findFirst e).
Proof using R_refl R_trans. intros s r s' E. inversion E; subst. apply R_refl. Qed.

Lemma steps_todo_findMany (u : option string) : steps R (todo_findMany u).
Proof using R_refl R_trans. intros s r s' E. inversion E; subst. apply R_refl. Qed.

End Steps.

Lemma extends_refl (s : Store) : extends s s.
Proof. split; [exists [], []; rewrite !app_nil_r; auto | lia]. Qed.

Lemma extends_trans (s1 s2 s3 : Store) : extends s1 s2 -> extends s2 s3 -> extends s1 s3.
Proof.
  intros [(us1 & ts1 & U1 & T1) N1] [(us2 & ts2 & U2 & T2) N2].
  split; [|lia]. exists (us1 ++ us2)%list, (ts1 ++ ts2)%list.
  rewrite U2, T2, U1, T1, !app_assoc. auto.
Qed.

Lemma steps_user_create (e p : string) : steps extends (user_create e p).
Proof.
  intros s r s' E. inversion E; subst.
  split; [|cbn; lia]. eexists _, []. split; [reflexivity | symmetry; apply app_nil_r].
Qed.

Lemma steps_todo_create (ti d u : string) (now : nat) :
  steps extends (todo_create ti d u now).
Proof.
  intros s r s' E. inversion E; subst.
  split; [|cbn; lia]. eexists [], _. split; [symmetry; apply app_nil_r | reflexivity].
Qed.

(** Steps through a handler for a reflexive and transitive [R]. *)
Ltac steps_tac Rrefl Rtrans :=
  repeat (cbv beta iota zeta;
    match goal with
    | |- steps _ (try_catch _ _) => apply (steps_try _ Rrefl Rtrans); [|intro]
    | |- steps _ (bind _ _) => apply (steps_bind _ Rrefl Rtrans); [|intro]
    | |- steps _ (attempt _) => apply (steps_attempt _ Rrefl Rtrans)
    | |- steps _ (ret _) => apply (steps_ret _ Rrefl Rtrans)
    | |- steps _ (throw _) => apply (steps_throw _ Rrefl Rtrans)
    | |- steps _ (lift _) => apply (steps_lift _ Rrefl Rtrans)
    | |- steps _ (user_findFirst _) => apply (steps_user_findFirst _ Rrefl Rtrans)
    | |- steps _ (todo_findMany _) => apply (steps_todo_findMany _ Rrefl Rtrans)
    | |- steps _ (internal_error _) => unfold internal_error
    | |- steps _ (getPrismaClient _) => unfold getPrismaClient
    | |- steps _ (as_string _ _) => unfold as_string
    | |- steps _ (req_json _) => unfold req_json
    | |- steps _ (protected _ _ _) => unfold protected
    | |- steps _ (if ?b then _ else _) => destruct b
    | |- steps _ (match ?x with _ => _ end) => destruct x
    end).

Lemma route_extends (cfg : Config) (salt : list byte) (now : nat) (req : Request) :
  steps extends (route cfg salt now req).
Proof.
  unfold route, signup, signin, create_todo, list_todos.
  steps_tac extends_refl extends_trans;
    first [apply steps_user_create | apply steps_todo_create].
Qed.

(** Every request only appends users and todos and never lowers the id
    counter: nothing is ever updated or deleted, whatever the answer. *)
Theorem app_extends (cfg : Config) (salt : list byte) (now : nat) (req : Request)
    (s : Store) :
  extends s (snd (app cfg salt now req s)).
Proof.
  unfold app. destruct (route cfg salt now req s) as [[r|e] s'] eqn:E;
    exact (route_extends cfg salt now req s _ s' E).
Qed.

Lemma nodup_snoc {A} (l : list A) (x : A) : NoDup l -> ~ In x l -> NoDup (l ++ [x]).
Proof.
  induction 1 as [|y l Hy Hl IH]; intros Hx; cbn.
  - constructor; [intros []|constructor].
  - constructor.
    + rewrite in_app_iff. intros [H1|[H1|[]]]; [contradiction|].
      apply Hx. left. congruence.
    + apply IH. intros H1. apply Hx. right. exact H1.
Qed.

Lemma find_email_none (l : list User) (e : string) :
  find (fun u => String.eqb (user_email u) e) l = None -> ~ In e (map user_email l).
Proof.
  intros Hf Hin. apply in_map_iff in Hin as (u & Hu & Hin).
  pose proof (find_none _ _ Hf u Hin) as F. cbn in F.
  rewrite Hu, String.eqb_refl in F. discriminate.
Qed.

Lemma unique_kept_refl (s : Store) : unique_kept s s.
Proof. intros H0. exact H0. Qed.

Lemma unique_kept_trans (s1 s2 s3 : Store) :
  unique_kept s1 s2 -> unique_kept s2 s3 -> unique_kept s1 s3.
Proof. intros H1 H2 H0. exact (H2 (H1 H0)). Qed.

Lemma steps_todo_create_unique (ti d u : string) (now : nat) :
  steps unique_kept (todo_create ti d u now).
Proof. intros s r s' E. inversion E; subst. intros H0. exact H0. Qed.

(** Signup adds a user only after [findFirst] found none with its email. *)
Lemma signup_unique (cfg : Config) (salt : list byte) (req : Request) :
  steps unique_kept (signup cfg salt req).
Proof.
  intros s r s' E Hu.
  unfold signup, try_catch, bind, req_json, attempt, getPrismaClient, as_string,
    user_findFirst, user_create, ret, throw, internal_error in E.
  destruct (req_body req) as [obj|]; [|inversion E; subst; exact Hu].
  cbv beta iota zeta in E.
  destruct (negb (jtruthy (jget "email" obj)) || negb (jtruthy (jget "password" obj)));
    [inversion E; subst; exact Hu|].
  destruct (truthy (env_DATABASE_URL cfg) || truthy (process_DATABASE_URL cfg));
    cbv beta iota zeta in E; [|inversion E; subst; exact Hu].
  destruct (jget "email" obj) as [[e| | | |]|]; cbv beta iota zeta in E;
    try (inversion E; subst; exact Hu).
  destruct (find (fun u => String.eqb (user_email u) e) (users s)) as [u|] eqn:F;
    cbv beta iota zeta in E; [inversion E; subst; exact Hu|].
  destruct (jget "password" obj) as [[p| | | |]|]; cbv beta iota zeta in E;
    try (inversion E; subst; exact Hu).
  inversion E; subst. unfold emails_unique. cbn. rewrite map_app. cbn.
  apply nodup_snoc; [exact Hu|]. exact (find_email_none _ _ F).
Qed.

Lemma route_unique (cfg : Config) (salt : list byte) (now : nat) (req : Request) :
  steps unique_kept (route cfg salt now req).
Proof.
  unfold route.
  steps_tac unique_kept_refl unique_kept_trans.
  all: first [ apply signup_unique
             | unfold signin, create_todo, list_todos;
               steps_tac unique_kept_refl unique_kept_trans;
               apply steps_todo_create_unique ].
Qed.

(** No two users ever share an email: whatever request is served, a store
    with distinct emails keeps them distinct, and so does every sequence
    of requests from the empty store. *)
Theorem emails_stay_unique (cfg : Config) :
  (forall salt now req s,
     emails_unique s -> emails_unique (snd (app cfg salt now req s))) /\
  (forall reqs, emails_unique (snd (serve cfg reqs empty_store))).
Proof.
  assert (Step : forall salt now req s,
            emails_unique s -> emails_unique (snd (app cfg salt now req s))).
  { intros salt now req s Hu. unfold app.
    destruct (route cfg salt now req s) as [[r|e] s'] eqn:E;
      exact (route_unique cfg salt now req s _ s' E Hu). }
  split; [exact Step|].
  intros reqs.
  assert (Gen : forall s, emails_unique s -> emails_unique (snd (serve cfg reqs s))).
  { induction reqs as [|[[salt now] req] rest IH]; intros s Hs; [exact Hs|].
    cbn. pose proof (Step salt now req s Hs) as H1.
    destruct (app cfg salt now req s) as [r s1].
    specialize (IH s1 H1). destruct (serve cfg rest s1) as [rs s2]. exact IH. }
  apply Gen. constructor.
Qed.

(** The store after a sequence of requests extends the store before it. *)
Theorem serve_extends (cfg : Config) (reqs : list (list byte * nat * Request))
    (s : Store) :
  extends s (snd (serve cfg reqs s)).
Proof.
  revert s. induction reqs as [|[[salt now] req] rest IH]; intros s;
    [apply extends_refl|].
  cbn. pose proof (app_extends cfg salt now req s) as H1.
  destruct (app cfg salt now req s) as [r s1].
  specialize (IH s1). destruct (serve cfg rest s1) as [rs s2].
  exact (extends_trans _ _ _ H1 IH).
Qed.

Lemma try_internal_ok (m : M Response) (s : Store) (e : string) (s' : Store) :
  try_catch m internal_error s <> (Throw e, s').
Proof.
  unfold try_catch, internal_error, ret.
  destruct (m s) as [[r|e0] s1]; discriminate.
Qed.

Lemma protected_throw (cfg : Config) (req : Request) (h : option string -> M Response)
    (s : Store) (e : string) (s' : Store) :
  (forall uid s0 e0 s1, h uid s0 <> (Throw e0, s1)) ->
  protected cfg req h s = (Throw e, s') <->
  auth_gate cfg (req_authorization req) = Throw e /\ s' = s.
Proof.
  intros Hh. unfold protected.
  destruct (auth_gate cfg (req_authorization req)) as [[r|uid]|e0].
  - unfold ret. split; [discriminate | intros [F _]; discriminate F].
  - split; [intros E; exfalso; exact (Hh uid s e s' E) | intros [F _]; discriminate F].
  - unfold throw. split; [intros E; inversion E; auto | intros [F ->]; congruence].
Qed.

Lemma route_no_text500 (cfg : Config) (salt : list byte) (now : nat) (req : Request) :
  post (fun r => r <> json (BText "Internal Server Error") 500) (route cfg salt now req).
Proof.
  unfold route, signup, signin, create_todo, list_todos.
  hoare; try (unfold not_found, json; congruence).
  all: apply post_bind_any; intro; hoare; unfold json; congruence.
Qed.

Lemma notfound_ok (uid : option string) (s0 : Store) (e0 : string) (s1 : Store) :
  (fun _ : option string => ret not_found) uid s0 <> (Throw e0, s1).
Proof. discriminate. Qed.

(** A 500 "Internal Server Error" text answer (Hono's default error
    handler) comes exactly from [jwt.verify] throwing in the middleware,
    on any route but signup and signin, and then the store is unchanged:
    the handlers catch everything else. *)
Theorem internal_server_error_from_gate (cfg : Config) (salt : list byte) (now : nat)
    (req : Request) (s s' : Store) :
  app cfg salt now req s = (json (BText "Internal Server Error") 500, s') <->
  (exists e, auth_gate cfg (req_authorization req) = Throw e) /\ s' = s /\
  ~ (req_method req = POST /\
     (req_path req = "/api/v1/signup" \/ req_path req = "/api/v1/signin")).
Proof.
  assert (Hroute : forall e s1,
    route cfg salt now req s = (Throw e, s1) <->
    (auth_gate cfg (req_authorization req) = Throw e /\ s1 = s) /\
    ~ (req_method req = POST /\
       (req_path req = "/api/v1/signup" \/ req_path req = "/api/v1/signin"))).
  { intros e s1. unfold route. cbv zeta.
    destruct (req_method req).
    - assert (Hnp : ~ (GET = POST /\
                 (req_path req = "/api/v1/signup" \/ req_path req = "/api/v1/signin")))
        by (intros [F _]; discriminate F).
      destruct (String.eqb (req_path req) "/api/v1/todos").
      + rewrite protected_throw by (intros; apply try_internal_ok). tauto.
      + rewrite protected_throw by apply notfound_ok. tauto.
    - destruct (String.eqb (req_path req) "/api/v1/signup") eqn:E1.
      { apply String.eqb_eq in E1. split.
        - intros F. exfalso. exact (try_internal_ok _ _ _ _ F).
        - intros [_ F]. exfalso. apply F. auto. }
      destruct (String.eqb (req_path req) "/api/v1/signin") eqn:E2.
      { apply String.eqb_eq in E2. split.
        - intros F. exfalso. exact (try_internal_ok _ _ _ _ F).
        - intros [_ F]. exfalso. apply F. auto. }
      apply String.eqb_neq in E1, E2.
      assert (Hnp : ~ (POST = POST /\
                 (req_path req = "/api/v1/signup" \/ req_path req = "/api/v1/signin")))
        by (intros [_ [F|F]]; contradiction).
      destruct (String.eqb (req_path req) "/api/v1/todo").
      + rewrite protected_throw by (intros; apply try_internal_ok). tauto.
      + rewrite protected_throw by apply notfound_ok. tauto.
    - assert (Hnp : ~ (OTHER_METHOD = POST /\
                 (req_path req = "/api/v1/signup" \/ req_path req = "/api/v1/signin")))
        by (intros [F _]; discriminate F).
      rewrite protected_throw by apply notfound_ok. tauto. }
  unfold app. split.
  - destruct (route cfg salt now req s) as [[r|e] s1] eqn:E; intros F.
    + inversion F; subst.
      exfalso. exact (route_no_text500 cfg salt now req s _ s' E eq_refl).
    + inversion F; subst. destruct (proj1 (Hroute e s') eq_refl) as [[G ->] Hnp]. eauto.
  - intros [[e G] [-> Hnp]].
    assert (E : route cfg salt now req s = (Throw e, s)) by (apply Hroute; auto).
    rewrite E. reflexivity.
Qed.

(** A request to no registered route still passes the middleware: it gets
    401 without a bearer token, Hono's 404 with an admitted one, and 500
    when [jwt.verify] throws; the store is unchanged. *)
Theorem unknown_route_response (cfg : Config) (salt : list byte) (now : nat)
    (req : Request) (s : Store) (Hunknown : known_route req = false) :
  app cfg salt now req s =
    (match auth_gate cfg (req_authorization req) with
     | Ok (Reject _) => json (BMessage "Unauthorized") 401
     | Ok (Pass _) => not_found
     | Throw _ => json (BText "Internal Server Error") 500
     end, s).
Proof.
  unfold known_route in Hunknown. unfold app, route. cbv zeta.
  assert (Hp : forall h, (forall uid, h uid = ret not_found) ->
    match protected cfg req h s with
    | (Ok r, s') => (r, s')
    | (Throw _, s') => (json (BText "Internal Server Error") 500, s')
    end =
    (match auth_gate cfg (req_authorization req) with
     | Ok (Reject _) => json (BMessage "Unauthorized") 401
     | Ok (Pass _) => not_found
     | Throw _ => json (BText "Internal Server Error") 500
     end, s)).
  { intros h Hh. unfold protected.
    destruct (auth_gate cfg (req_authorization req)) as [[r|uid]|e] eqn:G.
    - rewrite (gate_reject _ _ _ G). reflexivity.
    - rewrite Hh. reflexivity.
    - reflexivity. }
  destruct (req_method req).
  - rewrite Hunknown. apply Hp. reflexivity.
  - apply orb_false_iff in Hunknown as [Hunknown E3].
    apply orb_false_iff in Hunknown as [E1 E2].
    rewrite E1, E2, E3. apply Hp. reflexivity.
  - apply Hp. reflexivity.
Qed.

Lemma same_refl (s : Store) : s = s.
Proof. reflexivity. Qed.

Lemma same_trans (s1 s2 s3 : Store) : s2 = s1 -> s3 = s2 -> s3 = s1.
Proof. congruence. Qed.

(** Only signup and todo creation write: any other request, whatever its
    answer, leaves the store exactly as it was. *)
Theorem read_only_requests (cfg : Config) (salt : list byte) (now : nat)
    (req : Request) (s : Store)
    (Hro : req_method req <> POST \/
           (req_path req <> "/api/v1/signup" /\ req_path req <> "/api/v1/todo")) :
  snd (app cfg salt now req s) = s.
Proof.
  assert (Hr : steps (fun s s' => s' = s) (route cfg salt now req)).
  { unfold route. cbv zeta.
    destruct (req_method req) eqn:Em.
    - steps_tac same_refl same_trans.
      all: unfold list_todos; steps_tac same_refl same_trans.
    - destruct Hro as [F|[N1 N2]]; [congruence|].
      rewrite (proj2 (String.eqb_neq _ _) N1), (proj2 (String.eqb_neq _ _) N2).
      steps_tac same_refl same_trans.
      all: unfold signin; steps_tac same_refl same_trans.
    - steps_tac same_refl same_trans. }
  unfold app. destruct (route cfg salt now req s) as [[r|e] s'] eqn:E;
    exact (Hr s _ s' E).
Qed.

End Extras.

(** ** Instances of the further properties *)

Lemma credentials_required_witness :
  @app sample_crypto sample_cfg [] 0
    (body_request POST "/api/v1/signup" None [("email", JStr "a@x.com")]) sample_store =
    (json (BMessage "Please provide email and password") 400, sample_store) /\
  @app sample_crypto sample_cfg [] 0
    (body_request POST "/api/v1/signin" None [("email", JStr "a@x.com")]) sample_store =
    (json (BMessage "Please provide email and password") 400, sample_store).
Proof.
  apply (@credentials_required sample_crypto sample_cfg [] 0 None
           [("email", JStr "a@x.com")] sample_store).
  right. reflexivity.
Defined.

Lemma signup_without_database_witness :
  @app sample_crypto no_db_cfg [] 0
    (body_request POST "/api/v1/signup" None
       [("email", JStr "a@x.com"); ("password", JStr "hunter2")]) sample_store =
    (json (BMessageError "Database connection error" no_db_message) 500, sample_store).
Proof.
  apply (@signup_without_database sample_crypto no_db_cfg [] 0 None
           [("email", JStr "a@x.com"); ("password", JStr "hunter2")] sample_store);
    [reflexivity | split; reflexivity].
Defined.

Lemma signin_unknown_email_witness :
  @app sample_crypto sample_cfg [] 0
    (body_request POST "/api/v1/signin" None
       [("email", JStr "a@x.com"); ("password", JStr "hunter2")]) sample_store =
    (json (BMessage "user doesn't exist") 400, sample_store).
Proof.
  apply (@signin_unknown_email sample_crypto sample_cfg [] 0 None
           [("email", JStr "a@x.com"); ("password", JStr "hunter2")] sample_store
           "a@x.com"); try reflexivity.
  - discriminate.
  - intros u [].
Defined.

Lemma create_todo_fields_required_witness :
  @app sample_crypto sample_cfg [] 0
    (body_request POST "/api/v1/todo" (Some ("Bearer " ++ sample_token))
       [("title", JStr "t")]) sample_store =
    (json (BMessage "Please provide title and description") 400, sample_store).
Proof.
  apply (@create_todo_fields_required sample_crypto sample_cfg [] 0
           (Some ("Bearer " ++ sample_token)) [("title", JStr "t")] sample_store
           (Some "1")).
  - vm_compute. reflexivity.
  - right. reflexivity.
Defined.

Lemma todo_routes_without_database_witness :
  @app sample_crypto no_db_cfg [] 0
    (body_request POST "/api/v1/todo" (Some ("Bearer " ++ sample_token))
       [("title", JStr "t"); ("description", JStr "d")]) sample_store =
    (json (BMessageError "Internal server error" no_db_message) 500, sample_store) /\
  @app sample_crypto no_db_cfg [] 0
    (todos_request (Some ("Bearer " ++ sample_token))) sample_store =
    (json (BMessageError "Internal server error" no_db_message) 500, sample_store).
Proof.
  apply (@todo_routes_without_database sample_crypto no_db_cfg [] 0
           (Some ("Bearer " ++ sample_token))
           [("title", JStr "t"); ("description", JStr "d")] sample_store (Some "1")).
  - vm_compute. reflexivity.
  - reflexivity.
  - split; reflexivity.
Defined.

Lemma create_then_list_witness :
  let todo := {| todo_id := nat_to_string (next_id sample_store); todo_title := "t";
                 todo_description := "d"; todo_completed := false;
                 todo_userId := "1"; todo_createdAt := 5; todo_updatedAt := 5 |} in
  let s' := {| users := users sample_store; todos := (todos sample_store ++ [todo])%list;
               next_id := S (next_id sample_store) |} in
  @app sample_crypto sample_cfg [] 5
    (body_request POST "/api/v1/todo" (Some ("Bearer " ++ sample_token))
       [("title", JStr "t"); ("description", JStr "d")]) sample_store =
    (json (BTodo todo) 200, s') /\
  (forall salt' now',
     @app sample_crypto sample_cfg salt' now'
       (todos_request (Some ("Bearer " ++ sample_token))) s' =
       (json (BTodos (filter (fun t => String.eqb (todo_userId t) "1")
                        (todos sample_store) ++ [todo])%list) 200, s')).
Proof.
  apply (@create_then_list sample_crypto sample_cfg [] 5
           (Some ("Bearer " ++ sample_token))
           [("title", JStr "t"); ("description", JStr "d")] sample_store "1" "t" "d");
    first [vm_compute; reflexivity | discriminate].
Defined.

Lemma invalid_json_body_witness :
  let a := Some ("Bearer " ++ sample_token) in
  let bad path := {| req_method := POST; req_path := path; req_authorization := a;
                     req_body := None |} in
  let err := (json (BMessageError "Internal server error" "Unexpected end of JSON input") 500,
              sample_store) in
  @app sample_crypto sample_cfg [] 0 (bad "/api/v1/signup") sample_store = err /\
  @app sample_crypto sample_cfg [] 0 (bad "/api/v1/signin") sample_store = err /\
  @app sample_crypto sample_cfg [] 0 (bad "/api/v1/todo") sample_store = err.
Proof.
  apply (@invalid_json_body sample_crypto sample_cfg [] 0
           (Some ("Bearer " ++ sample_token)) sample_store (Some "1")).
  vm_compute. reflexivity.
Defined.

Lemma verifyPassword_decides_key_witness :
  (@verifyPassword sample_crypto "hunter3"
     (@hashPassword sample_crypto (repeat x07 16) "hunter2") = Ok true /\
   @scrypt sample_crypto "hunter3" (repeat x07 16) =
     @scrypt sample_crypto "hunter2" (repeat x07 16)) \/
  (@verifyPassword sample_crypto "hunter3"
     (@hashPassword sample_crypto (repeat x07 16) "hunter2") = Ok false /\
   @scrypt sample_crypto "hunter3" (repeat x07 16) <>
     @scrypt sample_crypto "hunter2" (repeat x07 16)).
Proof.
  apply (@verifyPassword_decides_key sample_crypto sample_scrypt_dkLen
           (repeat x07 16) "hunter2" "hunter3").
  reflexivity.
Defined.

Lemma signin_wrong_password_witness :
  @app sample_crypto sample_cfg [] 0
    (body_request POST "/api/v1/signin" None
       [("email", JStr "a@x.com"); ("password", JStr "hunter3")]) one_user_store =
    (json (BMessage "Invalid password") 400, one_user_store).
Proof.
  apply (@signin_wrong_password sample_crypto sample_scrypt_dkLen sample_cfg [] 0 None
           [("email", JStr "a@x.com"); ("password", JStr "hunter3")] one_user_store
           one_user "a@x.com" "hunter2" "hunter3" (repeat x07 16));
    try reflexivity; discriminate.
Defined.

Lemma signup_signin_access_witness :
  exists uid s1 token,
    @app sample_crypto sample_cfg (repeat x07 16) 0
      (signup_request "a@x.com" "hunter2") empty_store = (json (BUserId uid) 200, s1) /\
    @app sample_crypto sample_cfg [] 1
      (body_request POST "/api/v1/signin" None
         [("email", JStr "a@x.com"); ("password", JStr "hunter2")]) s1 =
      (json (BToken token) 200, s1) /\
    @auth_gate sample_crypto sample_cfg (Some ("Bearer " ++ token)) = Ok (Pass (Some uid)).
Proof.
  apply (@signup_signin_access sample_crypto sample_decode_encode sample_encode_shape
           sample_hs256_shape sample_scrypt_dkLen sample_cfg (repeat x07 16) [] 0 1
           "a@x.com" "hunter2" empty_store); try reflexivity;
    try (vm_compute; discriminate).
  intros u [].
Defined.

Lemma unknown_route_response_witness :
  @app sample_crypto sample_cfg [] 0
    (body_request GET "/api/v1/users" (Some ("Bearer " ++ sample_token)) []) sample_store =
    (match @auth_gate sample_crypto sample_cfg (Some ("Bearer " ++ sample_token)) with
     | Ok (Reject _) => json (BMessage "Unauthorized") 401
     | Ok (Pass _) => not_found
     | Throw _ => json (BText "Internal Server Error") 500
     end, sample_store).
Proof.
  apply (@unknown_route_response sample_crypto sample_cfg [] 0
           (body_request GET "/api/v1/users" (Some ("Bearer " ++ sample_token)) [])
           sample_store).
  reflexivity.
Defined.

Lemma read_only_requests_witness :
  snd (@app sample_crypto sample_cfg [] 0
         (body_request POST "/api/v1/signin" None
            [("email", JStr "a@x.com"); ("password", JStr "hunter3")]) one_user_store) =
    one_user_store.
Proof.
  apply (@read_only_requests sample_crypto sample_cfg [] 0
           (body_request POST "/api/v1/signin" None
              [("email", JStr "a@x.com"); ("password", JStr "hunter3")]) one_user_store).
  right. split; discriminate.
Defined.
